(** * attributes.mixin.js: IDL attribute accessors for custom elements

    A shallow embedding of [src/attributes.mixin.js] and the properties of
    its accessors.  The file has four layers:

    - [JS]: the primitive JavaScript values the accessors handle, with the
      language's own conversions ([ToBoolean], [ToString], [parseFloat],
      the [||] operator).  Numbers are IEEE 754 binary64, as in the language.
    - [Host]: the element instance the accessors run on: its content
      attributes, the private [#idlAttributes] map, the public fields that
      hold proxy targets, and the record of [attributeChangedCallback] calls.
    - [Mixin]: [attributesMixin] itself: the base check, [observedAttributes],
      [#setupAttribute] with its three pairs of accessors, [#setupAttributes],
      and the look-up of the members the accessors call on [this], which an
      accessor or a field of the same name shadows.
    - the properties. *)

From Stdlib Require Import ZArith Ascii String List PrimFloat FloatOps SpecFloat.
From stdpp Require Import gmap strings.

Local Open Scope string_scope.
Local Open Scope Z_scope.

(* A decimal literal denotes the nearest binary64 number, as in the language. *)
Set Warnings "-inexact-float".

(** ** JavaScript primitive values *)

Module JS.

(** The values given to the accessors and kept by them: the primitive
    values [undefined], [null], booleans, numbers and strings.  Strings are
    sequences of code units below 256 (one [ascii] each).  Objects occur as
    proxy targets only (see [Host.instance]), not as values. *)
Inductive value :=
| VUndefined
| VNull
| VBool (b : bool)
| VNum (n : float)
| VStr (s : string).

(** *** Reading a decimal literal: [parseFloat] *)

(** StrWhiteSpaceChar, for the code units a [string] can hold:
    TAB, LF, VT, FF, CR, SP and NBSP. *)
Definition is_whitespace (c : ascii) : bool :=
  let n := Z.of_N (N_of_ascii c) in
  ((9 <=? n) && (n <=? 13)) || (n =? 32) || (n =? 160).

Fixpoint trim_start (s : string) : string :=
  match s with
  | String c s' => if is_whitespace c then trim_start s' else s
  | EmptyString => s
  end.

Definition digit_of (c : ascii) : option Z :=
  let n := Z.of_N (N_of_ascii c) in
  if (48 <=? n) && (n <=? 57) then Some (n - 48) else None.

(** [read_digits acc cnt s] consumes the decimal digits at the head of [s]:
    the number they denote after [acc], how many there were after [cnt],
    and the rest of the string. *)
Fixpoint read_digits (acc : Z) (cnt : nat) (s : string) : Z * nat * string :=
  match s with
  | String c s' =>
      match digit_of c with
      | Some d => read_digits (10 * acc + d) (S cnt) s'
      | None => (acc, cnt, s)
      end
  | EmptyString => (acc, cnt, s)
  end.

(** ExponentPart, when the text starts with one; 0 otherwise (the prefix of
    the literal then ends before the exponent indicator). *)
Definition read_exponent (s : string) : Z :=
  match s with
  | String c s' =>
      if (Ascii.eqb c "e" || Ascii.eqb c "E")%bool then
        match s' with
        | String sg s'' =>
            if Ascii.eqb sg "-" then
              match read_digits 0 0 s'' with
              | (_, O, _) => 0
              | (e, _, _) => - e
              end
            else if Ascii.eqb sg "+" then
              match read_digits 0 0 s'' with
              | (_, O, _) => 0
              | (e, _, _) => e
              end
            else
              match read_digits 0 0 s' with
              | (_, O, _) => 0
              | (e, _, _) => e
              end
        | EmptyString => 0
        end
      else 0
  | EmptyString => 0
  end.

(** The mathematical value of the longest prefix that is a
    StrUnsignedDecimalLiteral. *)
Inductive literal :=
| LInfinity
| LDecimal (m : Z) (e : Z).   (* m * 10^e, with 0 <= m *)

Definition read_unsigned (s : string) : option literal :=
  if String.prefix "Infinity" s then Some LInfinity
  else
    match read_digits 0 0 s with
    | (i, ni, String "." r) =>
        match read_digits i 0 r with
        | (m, nf, r') =>
            match ni, nf with
            | O, O => None
            | _, _ => Some (LDecimal m (read_exponent r' - Z.of_nat nf))
            end
        end
    | (_, O, _) => None
    | (i, _, r) => Some (LDecimal i (read_exponent r))
    end.

(** The binary64 number nearest to [m * 10^e] (ties to even), for [0 < m].
    For a negative [e] the quotient is taken with two guard bits below the
    last bit the format can keep and a sticky bit for the remainder. *)
Definition round_decimal (m e : Z) : spec_float :=
  if 0 <=? e then binary_normalize prec emax (m * 10 ^ e) 0 false
  else
    let d := 10 ^ (- e) in
    let k := Z.max 0 (Z.log2 d - Z.log2 m + 60) in
    let q := (m * 2 ^ k) / d in
    let sticky := if (m * 2 ^ k) mod d =? 0 then 0 else 1 in
    binary_normalize prec emax (2 * q + sticky) (- (k + 1)) false.

Definition number_of_literal (neg : bool) (l : literal) : float :=
  match l with
  | LInfinity => if neg then neg_infinity else infinity
  | LDecimal m e =>
      if m =? 0 then (if neg then neg_zero else zero)
      else
        let f := SF2Prim (round_decimal m e) in
        if neg then (- f)%float else f
  end.

(** [parseFloat] on a string: leading white space is skipped, then the
    longest prefix that is a StrDecimalLiteral is read; NaN if there is none. *)
Definition parseFloat_string (s : string) : float :=
  let t := trim_start s in
  let '(neg, u) :=
    match t with
    | String c t' =>
        if Ascii.eqb c "-" then (true, t')
        else if Ascii.eqb c "+" then (false, t')
        else (false, t)
    | EmptyString => (false, t)
    end in
  match read_unsigned u with
  | Some l => number_of_literal neg l
  | None => nan
  end.

(** *** Writing a number: Number::toString in radix 10 *)

(** The decimal digits of [s], exactly [k] of them, most significant first. *)
Fixpoint digits_string (k : nat) (s : Z) : string :=
  match k with
  | O => ""
  | S k' =>
      digits_string k' (s / 10) ++ String (ascii_of_N (Z.to_N (48 + s mod 10))) ""
  end.

Fixpoint count_digits (fuel : nat) (s : Z) : nat :=
  match fuel with
  | O => O
  | S f => if s <? 10 then 1%nat else S (count_digits f (s / 10))
  end.

Definition integer_string (z : Z) : string :=
  digits_string (count_digits 400 z) z.

Fixpoint zeros (k : nat) : string :=
  match k with
  | O => ""
  | S k' => String "0" (zeros k')
  end.

(** [num / den < 10 ^ n], on positive integers. *)
Definition below_pow10 (num den n : Z) : bool :=
  if 0 <=? n then num <? den * 10 ^ n else num * 10 ^ (- n) <? den.

Fixpoint first_pow10_above (fuel : nat) (num den n : Z) : Z :=
  match fuel with
  | O => n
  | S f =>
      if below_pow10 num den n then n
      else first_pow10_above f num den (n + 1)
  end.

(** The [n] with [10 ^ (n - 1) <= num / den < 10 ^ n]: searched upwards from
    an underestimate read off the binary logarithms. *)
Definition decimal_exponent (num den : Z) : Z :=
  first_pow10_above 8 num den
    (((Z.log2 num - Z.log2 den - 1) * 30103) / 100000 - 1).

(** The two [k]-digit integers around [x * 10 ^ (k - n0)], where
    [x = num / den]: the lower one, whether [x] is exactly it, and whether
    the lower one is strictly nearer, or the upper one, or neither. *)
Definition around (num den n0 : Z) (k : nat) : Z * bool * comparison :=
  let p := Z.of_nat k - n0 in
  let N := if 0 <=? p then num * 10 ^ p else num in
  let D := if 0 <=? p then den else den * 10 ^ (- p) in
  (N / D, (N mod D =? 0), (2 * (N mod D) ?= D)).

(** A [k]-digit candidate [s * 10 ^ (n0 - k)]; when [s] has grown to
    [10 ^ k] it is written with the next exponent. *)
Definition candidate (n0 : Z) (k : nat) (s : Z) : Z * nat * Z :=
  if s =? 10 ^ Z.of_nat k then (10 ^ (Z.of_nat k - 1), k, n0 + 1)
  else (s, k, n0).

Definition reads_back (x : float) (n0 : Z) (k : nat) (s : Z) : bool :=
  PrimFloat.eqb (SF2Prim (round_decimal s (n0 - Z.of_nat k))) x.

(** The nearest [k]-digit decimal, ties to the even one. *)
Definition nearest_digits (num den n0 : Z) (k : nat) : Z * nat * Z :=
  match around num den n0 k with
  | (lo, _, Lt) => candidate n0 k lo
  | (lo, _, Gt) => candidate n0 k (lo + 1)
  | (lo, _, Eq) => candidate n0 k (if Z.even lo then lo else lo + 1)
  end.

(** The [k]-digit decimal that denotes [x], if there is one: the nearest to
    [x] among those that read back as [x]. *)
Definition try_digits (x : float) (num den n0 : Z) (k : nat)
  : option (Z * nat * Z) :=
  match around num den n0 k with
  | (lo, exact, c) =>
      let ok_lo := reads_back x n0 k lo in
      let ok_hi := negb exact && reads_back x n0 k (lo + 1) in
      if ok_lo && ok_hi then Some (nearest_digits num den n0 k)
      else if ok_lo then Some (candidate n0 k lo)
      else if ok_hi then Some (candidate n0 k (lo + 1))
      else None
  end.

(** As few digits as possible: [k] grows from 1; 17 digits always suffice. *)
Fixpoint shortest_digits (fuel : nat) (x : float) (num den n0 : Z) (k : nat)
  : Z * nat * Z :=
  match fuel with
  | O => nearest_digits num den n0 k
  | S f =>
      match try_digits x num den n0 k with
      | Some r => r
      | None => shortest_digits f x num den n0 (S k)
      end
  end.

(** Steps 6 to 10 of Number::toString, from the digits [s], their number [k]
    and the position [n] of the decimal point. *)
Definition layout (s : Z) (k : nat) (n : Z) : string :=
  let ds := digits_string k s in
  let kz := Z.of_nat k in
  if (kz <=? n) && (n <=? 21) then ds ++ zeros (Z.to_nat (n - kz))
  else if (0 <? n) && (n <=? 21) then
    substring 0 (Z.to_nat n) ds ++ "." ++ substring (Z.to_nat n) (k - Z.to_nat n) ds
  else if (-6 <? n) && (n <=? 0) then "0." ++ zeros (Z.to_nat (- n)) ++ ds
  else
    let e := n - 1 in
    let tail := "e" ++ (if e <? 0 then "-" else "+") ++ integer_string (Z.abs e) in
    match k with
    | 1%nat => ds ++ tail
    | _ => substring 0 1 ds ++ "." ++ substring 1 (k - 1) ds ++ tail
    end.

Definition Number_toString (x : float) : string :=
  match Prim2SF x with
  | S754_nan => "NaN"
  | S754_zero _ => "0"
  | S754_infinity s => if s then "-Infinity" else "Infinity"
  | S754_finite s m e =>
      let num := if 0 <=? e then Zpos m * 2 ^ e else Zpos m in
      let den := if 0 <=? e then 1 else 2 ^ (- e) in
      let '(sd, k, n) :=
        shortest_digits 17 (abs x) num den (decimal_exponent num den) 1 in
      (if s then "-" else "") ++ layout sd k n
  end.

(** *** Conversions and operators on values *)

Definition ToBoolean (v : value) : bool :=
  match v with
  | VUndefined | VNull => false
  | VBool b => b
  | VNum n => negb (PrimFloat.eqb n 0 || is_nan n)
  | VStr s => negb (String.eqb s "")
  end.

Definition ToString (v : value) : string :=
  match v with
  | VUndefined => "undefined"
  | VNull => "null"
  | VBool b => if b then "true" else "false"
  | VNum n => Number_toString n
  | VStr s => s
  end.

(** [Boolean(v)] *)
Definition Boolean (v : value) : value := VBool (ToBoolean v).

(** [parseFloat(v, 10)]: the argument is converted to a string first; the
    second argument is ignored by the language. *)
Definition parseFloat (v : value) : value := VNum (parseFloat_string (ToString v)).

(** [a || b] *)
Definition logical_or (a b : value) : value := if ToBoolean a then a else b.

Declare Scope js_scope.
Delimit Scope js_scope with js.
Notation "a || b" := (logical_or a b) : js_scope.

(** [v !== undefined] *)
Definition is_defined (v : value) : bool :=
  match v with
  | VUndefined => false
  | _ => true
  end.

End JS.

(** ** The element instance and the effects of the accessors *)

Module Host.
Import JS.

Inductive error :=
| Error (message : string)               (* [throw new Error(message)] *)
| TypeError (message : string)           (* raised by the language itself *)
| RangeError (message : string)          (* the call stack is used up *)
| DOMException (name message : string).  (* raised by the host element *)

Inductive result (A : Type) :=
| Ok (a : A)
| Throw (e : error).
Arguments Ok {A} a.
Arguments Throw {A} e.

(** A property name or a Map key held in a configuration: a string, or
    [undefined] when the configuration leaves it out. *)
Definition of_name (o : option string) : value :=
  match o with
  | Some s => VStr s
  | None => VUndefined
  end.

Definition truthy (o : option string) : bool := ToBoolean (of_name o).

(** ToPropertyKey, and the conversion of an attribute name to a DOMString. *)
Definition ToPropertyKey (o : option string) : string := ToString (of_name o).

(** What the accessors can see and change.
    - [idlAttributes] is the private [#idlAttributes] Map of the instance.
    - [attributes] are the content attributes kept by the host element, an
      HTML element in an HTML document: by name in ASCII lower case.
    - [fields] are the own properties of the instance that hold a plain
      object (as the tests' [proxyTargetB = { label: '', ... }]), each a
      reference into [heap]; a location absent from [heap] is an object
      without own properties.  A plain object has writable data properties
      only, holding primitive values.  What an element inherits from the
      host ([dataset], [style], ...) and objects with accessor properties
      (as the tests' [proxyTargetA], an [<input>]) are not among them.
    - [calls] lists the invocations of [this.attributeChangedCallback] made
      by the accessors, oldest first.  What the host itself delivers when an
      observed content attribute changes is not part of it. *)
Record instance := {
  idlAttributes : gmap (option string) value;
  attributes : gmap string string;
  fields : gmap string positive;
  heap : gmap positive (gmap string value);
  calls : list (value * value * value)
}.

(** Computations on an instance that may throw. *)
Definition M (A : Type) : Type := instance -> result (A * instance).

#[global] Instance M_ret : MRet M := fun A a st => Ok (a, st).

#[global] Instance M_bind : MBind M := fun A B f m st =>
  match m st with
  | Ok (a, st') => f a st'
  | Throw e => Throw e
  end.

Definition throw {A} (e : error) : M A := fun _ => Throw e.

(** [this.#idlAttributes.get(key)] *)
Definition map_get (key : option string) : M value := fun st =>
  Ok (default VUndefined (idlAttributes st !! key), st).

(** [this.#idlAttributes.set(key, v)] *)
Definition map_set (key : option string) (v : value) : M unit := fun st =>
  Ok (tt, {| idlAttributes := <[key := v]> (idlAttributes st);
             attributes := attributes st;
             fields := fields st;
             heap := heap st;
             calls := calls st |}).

(** [this.attributeChangedCallback(name, oldValue, newValue)] *)
Definition attributeChangedCallback (name oldValue newValue : value) : M unit :=
  fun st =>
  Ok (tt, {| idlAttributes := idlAttributes st;
             attributes := attributes st;
             fields := fields st;
             heap := heap st;
             calls := calls st ++ [(name, oldValue, newValue)] |}).

(** The name of a content attribute, as an HTML element in an HTML document
    takes it: in ASCII lower case. *)
Definition lower_char (c : ascii) : ascii :=
  let n := nat_of_ascii c in
  if (65 <=? n)%nat && (n <=? 90)%nat then ascii_of_nat (n + 32) else c.

Fixpoint lower (s : string) : string :=
  match s with
  | EmptyString => EmptyString
  | String c rest => String (lower_char c) (lower rest)
  end.

(** The names [setAttribute] takes: the [Name] production of XML, here on
    the code units below 256.  Every host takes these; a string with a
    space in it is taken by none. *)
Definition name_start_char (c : ascii) : bool :=
  let n := nat_of_ascii c in
  (n =? 58)%nat                                   (* : *)
  || ((65 <=? n)%nat && (n <=? 90)%nat)           (* A-Z *)
  || (n =? 95)%nat                                (* _ *)
  || ((97 <=? n)%nat && (n <=? 122)%nat)          (* a-z *)
  || ((192 <=? n)%nat && (n <=? 214)%nat)
  || ((216 <=? n)%nat && (n <=? 246)%nat)
  || ((248 <=? n)%nat && (n <=? 255)%nat).

Definition name_char (c : ascii) : bool :=
  let n := nat_of_ascii c in
  name_start_char c
  || (n =? 45)%nat                                (* - *)
  || (n =? 46)%nat                                (* . *)
  || ((48 <=? n)%nat && (n <=? 57)%nat)           (* 0-9 *)
  || (n =? 183)%nat.

Definition valid_attribute_name (s : string) : bool :=
  match s with
  | EmptyString => false
  | String c rest => name_start_char c && forallb name_char (list_ascii_of_string rest)
  end.

(** [this.hasAttribute(name)] *)
Definition hasAttribute (name : option string) : M value := fun st =>
  Ok (VBool (bool_decide (is_Some (attributes st !! lower (ToPropertyKey name)))), st).

(** [this.getAttribute(name)]: the string, or [null] *)
Definition getAttribute (name : option string) : M value := fun st =>
  Ok (from_option VStr VNull (attributes st !! lower (ToPropertyKey name)), st).

(** [this.setAttribute(name, v)]: the host stores the string of [v], or
    throws an InvalidCharacterError when [name] is no name. *)
Definition setAttribute (name : option string) (v : value) : M unit := fun st =>
  if valid_attribute_name (ToPropertyKey name) then
    Ok (tt, {| idlAttributes := idlAttributes st;
               attributes := <[lower (ToPropertyKey name) := ToString v]> (attributes st);
               fields := fields st;
               heap := heap st;
               calls := calls st |})
  else
    Throw (DOMException "InvalidCharacterError" "String contains an invalid character").

(** [this.removeAttribute(name)] *)
Definition removeAttribute (name : option string) : M unit := fun st =>
  Ok (tt, {| idlAttributes := idlAttributes st;
             attributes := delete (lower (ToPropertyKey name)) (attributes st);
             fields := fields st;
             heap := heap st;
             calls := calls st |}).

(** The object at a location. *)
Definition object_at (h : gmap positive (gmap string value)) (l : positive)
  : gmap string value := default ∅ (h !! l).

(** [this[target][key]], for a target among [fields]: the own property of
    the plain object, [undefined] without one (a [key] that every object
    inherits, such as [constructor], [toString] or [__proto__], is left
    aside).  A TypeError when [this[target]] is undefined: [target] is
    looked up among [fields] only, so a name that the element inherits from
    the host, or that is the key of an accessor, reads as undefined. *)
Definition proxy_get (target key : option string) : M value := fun st =>
  match fields st !! ToPropertyKey target with
  | Some l =>
      Ok (default VUndefined (object_at (heap st) l !! ToPropertyKey key), st)
  | None =>
      Throw (TypeError ("Cannot read properties of undefined (reading '"
                          ++ ToPropertyKey key ++ "')"))
  end.

(** [this[target][key] = v] *)
Definition proxy_set (target key : option string) (v : value) : M unit := fun st =>
  match fields st !! ToPropertyKey target with
  | Some l =>
      Ok (tt, {| idlAttributes := idlAttributes st;
                 attributes := attributes st;
                 fields := fields st;
                 heap := <[l := <[ToPropertyKey key := v]> (object_at (heap st) l)]>
                           (heap st);
                 calls := calls st |})
  | None =>
      Throw (TypeError ("Cannot set properties of undefined (setting '"
                          ++ ToPropertyKey key ++ "')"))
  end.

End Host.

(** ** The mixin *)

Module Mixin.
Import JS Host.

(** An entry of the static [attributes] array (AttributeConfig).  A name
    left out is [None]; a [defaultValue] left out is [undefined]; [readonly]
    left out is falsy. *)
Record AttributeConfig := {
  idlName : option string;
  contentName : option string;
  proxyTarget : option string;
  type : option string;
  defaultValue : value;
  readonly : bool
}.

(** Classes, as far as [Base.prototype instanceof HTMLElement] looks at
    them: [HTMLElement] itself, a class that extends nothing of interest
    ([Element], [Node], [class C {}]), or a class declared with [extends]. *)
Inductive jsclass :=
| HTMLElement
| Rooted (name : string)
| Extends (name : string) (super : jsclass).

Definition class_name (c : jsclass) : string :=
  match c with
  | HTMLElement => "HTMLElement"
  | Rooted name => name
  | Extends name _ => name
  end.

Definition is_HTMLElement (c : jsclass) : bool :=
  match c with
  | HTMLElement => true
  | _ => false
  end.

(** [Base.prototype instanceof HTMLElement]: [HTMLElement.prototype] is on
    the prototype chain of [Base.prototype], above it. *)
Fixpoint prototype_instanceof_HTMLElement (Base : jsclass) : bool :=
  match Base with
  | Extends _ super =>
      is_HTMLElement super || prototype_instanceof_HTMLElement super
  | _ => false
  end.

(** A pair of accessors given to [Object.defineProperty]. *)
Record accessor := {
  get : M value;
  set : value -> M unit
}.

(** The state of one class returned by [attributesMixin], with the sub class
    that extends it: the private static [#attributesReady] and the accessors
    defined on [this.constructor.prototype] so far, by property key.  The
    sub class is taken to declare no member of its own under the key of a
    configuration. *)
Record component := {
  attributesReady : bool;
  prototype : gmap string accessor
}.

(** [Object.defineProperty(proto, key, {get, set})].  The property it
    defines is not configurable, so defining the key again with other
    functions is a TypeError. *)
Definition defineProperty (proto : gmap string accessor) (key : option string)
    (a : accessor) : result (gmap string accessor) :=
  match proto !! ToPropertyKey key with
  | Some _ => Throw (TypeError ("Cannot redefine property: " ++ ToPropertyKey key))
  | None => Ok (<[ToPropertyKey key := a]> proto)
  end.

(** [const reflectToContentAttribute = Boolean(contentAttributeName)] *)
Definition reflectToContentAttribute (config : AttributeConfig) : bool :=
  truthy (contentName config).

(** The members of the element that the accessors call on [this]. *)
Record members := {
  this_hasAttribute : option string -> M value;
  this_getAttribute : option string -> M value;
  this_setAttribute : option string -> value -> M unit;
  this_removeAttribute : option string -> M unit;
  this_attributeChangedCallback : value -> value -> value -> M unit
}.

(** The members as an element inherits them: the attribute methods of the
    host and the hook of its class. *)
Definition inherited : members := {|
  this_hasAttribute := hasAttribute;
  this_getAttribute := getAttribute;
  this_setAttribute := setAttribute;
  this_removeAttribute := removeAttribute;
  this_attributeChangedCallback := attributeChangedCallback
|}.

(** [case 'boolean'] *)
Definition boolean_accessor_on (this : members) (config : AttributeConfig)
  : accessor := {|
  get :=
    if truthy (proxyTarget config) then
      value ← proxy_get (proxyTarget config) (idlName config) ;
      mret (if is_defined value then Boolean value
            else Boolean (defaultValue config))
    else if negb (reflectToContentAttribute config) then
      value ← map_get (idlName config) ;
      mret (if is_defined value then Boolean value
            else Boolean (defaultValue config))
    else this_hasAttribute this (contentName config) ;
  set value :=
    if readonly config then mret tt
    else
      (if truthy (proxyTarget config)
       then proxy_set (proxyTarget config) (idlName config) value
       else mret tt) ;;
      if negb (reflectToContentAttribute config) then
        oldValue ← map_get (idlName config) ;
        map_set (idlName config) value ;;
        this_attributeChangedCallback this (of_name (idlName config)) oldValue value
      else if ToBoolean value then this_setAttribute this (contentName config) (VStr "")
      else this_removeAttribute this (contentName config)
|}.

(** [case 'number'] *)
Definition number_accessor_on (this : members) (config : AttributeConfig)
  : accessor := {|
  get :=
    if truthy (proxyTarget config) then
      value ← proxy_get (proxyTarget config) (idlName config) ;
      mret (parseFloat value || VNull)%js
    else if negb (reflectToContentAttribute config) then
      value ← map_get (idlName config) ;
      mret (parseFloat value || parseFloat (defaultValue config) || VNull)%js
    else
      value ← this_getAttribute this (contentName config) ;
      mret (parseFloat value || parseFloat (defaultValue config) || VNull)%js ;
  set value :=
    if readonly config then mret tt
    else
      (if truthy (proxyTarget config)
       then proxy_set (proxyTarget config) (idlName config) value
       else mret tt) ;;
      if negb (reflectToContentAttribute config) then
        oldValue ← map_get (idlName config) ;
        map_set (idlName config) value ;;
        this_attributeChangedCallback this (of_name (idlName config)) oldValue value
      else this_setAttribute this (contentName config) value
|}.

(** [default] *)
Definition default_accessor_on (this : members) (config : AttributeConfig)
  : accessor := {|
  get :=
    if truthy (proxyTarget config) then
      proxy_get (proxyTarget config) (idlName config)
    else if negb (reflectToContentAttribute config) then
      value ← map_get (idlName config) ;
      mret (value || defaultValue config
            || (if bool_decide (type config = Some "string")
                then VStr "" else VNull))%js
    else
      value ← this_getAttribute this (contentName config) ;
      mret (value || defaultValue config || VStr "")%js ;
  set value :=
    if readonly config then mret tt
    else
      (if truthy (proxyTarget config)
       then proxy_set (proxyTarget config) (idlName config) value
       else mret tt) ;;
      if negb (reflectToContentAttribute config) then
        oldValue ← map_get (idlName config) ;
        map_set (idlName config) value ;;
        this_attributeChangedCallback this (of_name (idlName config)) oldValue value
      else this_setAttribute this (contentName config) value
|}.

(** [switch (attributeType)] *)
Definition accessor_on (this : members) (config : AttributeConfig) : accessor :=
  if bool_decide (type config = Some "boolean") then boolean_accessor_on this config
  else if bool_decide (type config = Some "number") then number_accessor_on this config
  else default_accessor_on this config.

(** The accessors on an element on which [this.hasAttribute], ...,
    [this.attributeChangedCallback] are the inherited members. *)
Definition boolean_accessor (config : AttributeConfig) : accessor :=
  boolean_accessor_on inherited config.

Definition number_accessor (config : AttributeConfig) : accessor :=
  number_accessor_on inherited config.

Definition default_accessor (config : AttributeConfig) : accessor :=
  default_accessor_on inherited config.

Definition quote : string := String "034"%char "".

(** [this.constructor.prototype], as [#setupAttribute] evaluates it for
    each configuration.  [this.constructor] is looked up as any property
    is: it is the sub class until accessors are defined under the key
    [constructor]; from then on it is what their getter returns, a
    primitive value, which has no prototype to define a property on (or the
    getter throws itself: that is taken to be a TypeError too). *)
Definition constructor_prototype (proto : gmap string accessor)
  : result (gmap string accessor) :=
  match proto !! "constructor" with
  | Some _ => Throw (TypeError "Object.defineProperty called on non-object")
  | None => Ok proto
  end.

(** [#setupAttribute]: three checks, then the accessors chosen by
    [switch (attributeType)] are defined under [idlAttributeName]. *)
Definition setupAttribute (config : AttributeConfig)
    (proto : gmap string accessor) : result (gmap string accessor) :=
  if truthy (proxyTarget config) && negb (truthy (idlName config)) then
    Throw (Error ("You must provide a value for " ++ quote ++ "idlName" ++ quote
                    ++ " when using a proxyTarget."))
  else if truthy (proxyTarget config) && truthy (contentName config) then
    Throw (Error ("The " ++ quote ++ "contentName" ++ quote ++ " and " ++ quote
                    ++ "proxyTarget" ++ quote
                    ++ " properties cannot be used together."))
  else if readonly config && negb (truthy (proxyTarget config))
          && negb (is_defined (defaultValue config)) then
    Throw (Error "You must provide a proxyTarget or defaultValue for readonly attributes.")
  else
    match constructor_prototype proto with
    | Throw e => Throw e
    | Ok target =>
        if bool_decide (type config = Some "boolean") then
          defineProperty target (idlName config) (boolean_accessor config)
        else if bool_decide (type config = Some "number") then
          defineProperty target (idlName config) (number_accessor config)
        else
          defineProperty target (idlName config) (default_accessor config)
    end.

(** [#setupAttributes]: [forEach] over the configurations.  An exception
    ends it; what was defined before stays defined. *)
Fixpoint setupAttributes (attributeConfigs : list AttributeConfig)
    (proto : gmap string accessor) : gmap string accessor * option error :=
  match attributeConfigs with
  | [] => (proto, None)
  | attributeConfig :: rest =>
      match setupAttribute attributeConfig proto with
      | Ok proto' => setupAttributes rest proto'
      | Throw e => (proto, Some e)
      end
  end.

(** [attributesMixin(Base)]: the check on [Base], then a new class. *)
Definition attributesMixin (Base : jsclass) : result component :=
  if negb (is_HTMLElement Base) && negb (prototype_instanceof_HTMLElement Base) then
    Throw (Error ("Base parameter must be HTMLElement or a class that extends from or inherits HTMLElement. Received "
                    ++ class_name Base
                    ++ " which is not an instance of HTMLElement."))
  else Ok {| attributesReady := false; prototype := ∅ |}.

(** The element as [super()] returns it, with a new [#idlAttributes] Map. *)
Definition with_idlAttributes (element : instance) : instance :=
  {| idlAttributes := ∅;
     attributes := attributes element;
     fields := fields element;
     heap := heap element;
     calls := calls element |}.

(** The constructor, for a sub class whose static [attributes] is the given
    list: the accessors are set up by the first construction only.
    [this.constructor.attributes] is that list as long as no accessors are
    under the key [constructor]; what their getter returns has no list of
    configurations to go through. *)
Definition constructor (attributes : list AttributeConfig) (cls : component)
    (element : instance) : component * result instance :=
  let this := with_idlAttributes element in
  if attributesReady cls then (cls, Ok this)
  else
    match prototype cls !! "constructor" with
    | Some _ =>
        (cls, Throw (TypeError "Cannot read properties of undefined (reading 'forEach')"))
    | None =>
        match setupAttributes attributes (prototype cls) with
        | (proto, None) =>
            ({| attributesReady := true; prototype := proto |}, Ok this)
        | (proto, Some e) =>
            ({| attributesReady := false; prototype := proto |}, Throw e)
        end
    end.

(** [static get observedAttributes()] *)
Definition observedAttributes (attributes : list AttributeConfig)
  : list (option string) :=
  map contentName
    (List.filter (fun config => truthy (contentName config)) attributes).

(** *** The members of an element of a set-up component *)

(** The configuration whose accessors are under a key of the prototype. *)
Definition find_config (configs : list AttributeConfig) (key : string)
  : option AttributeConfig :=
  List.find (fun config => String.eqb (ToPropertyKey (idlName config)) key) configs.

Definition not_a_function (name : string) : error :=
  TypeError ("this." ++ name ++ " is not a function").

(** [this.name(...)], for one of the members above.  The property is looked
    up on the instance first, then on the prototype of the sub class, where
    the accessors are, and only then further up, where the member is.  An
    own property holding a plain object cannot be called; an accessor under
    [name] is read through its getter, which returns a primitive value,
    that cannot be called either, or throws itself. *)
Definition method {A} (configs : list AttributeConfig)
    (getter : AttributeConfig -> M value) (name : string) (member : M A) : M A :=
  fun st =>
  match fields st !! name with
  | Some _ => Throw (not_a_function name)
  | None =>
      match find_config configs name with
      | Some config =>
          match getter config st with
          | Ok _ => Throw (not_a_function name)
          | Throw e => Throw e
          end
      | None => member st
      end
  end.

Definition members_with (configs : list AttributeConfig)
    (getter : AttributeConfig -> M value) : members := {|
  this_hasAttribute name :=
    method configs getter "hasAttribute" (hasAttribute name);
  this_getAttribute name :=
    method configs getter "getAttribute" (getAttribute name);
  this_setAttribute name v :=
    method configs getter "setAttribute" (setAttribute name v);
  this_removeAttribute name :=
    method configs getter "removeAttribute" (removeAttribute name);
  this_attributeChangedCallback name oldValue newValue :=
    method configs getter "attributeChangedCallback"
      (attributeChangedCallback name oldValue newValue)
|}.

(** The getter of a configuration, called from a getter at the given depth
    below the limit of the call stack.  Getters that call each other without
    end use the stack up; a chain that ends has no key twice, so it is no
    longer than the list of the configurations. *)
Fixpoint getter_at (depth : nat) (configs : list AttributeConfig)
    (config : AttributeConfig) : M value :=
  match depth with
  | O => throw (RangeError "Maximum call stack size exceeded")
  | S depth' =>
      get (accessor_on (members_with configs (getter_at depth' configs)) config)
  end.

Definition members_of (configs : list AttributeConfig) : members :=
  members_with configs (getter_at (length configs) configs).

(** The accessors of a configuration, as they run on an element of the
    component set up with [configs]. *)
Definition installed (configs : list AttributeConfig) (config : AttributeConfig)
  : accessor := accessor_on (members_of configs) config.

(** *** Using an instance *)

(** What a program does with an instance after its construction. *)
Inductive event :=
| PropertyGet (key : string)                  (* [element[key]] *)
| PropertySet (key : string) (v : value)      (* [element[key] = v] *)
| SetAttribute (name : string) (v : value)    (* [element.setAttribute(name, v)] *)
| RemoveAttribute (name : string)             (* [element.removeAttribute(name)] *)
| FieldInit (name : string) (l : positive)    (* [name = object], a public field *)
| ObjectSet (l : positive) (key : string) (v : value).   (* [object[key] = v] *)

(** A public field is an own property of the instance, also under the name
    of an accessor of the prototype: it shadows the accessor, and a read or
    a write of a property that is a field does not reach the accessors.
    Other properties are read and written through the accessors; a property
    without accessor is outside the state kept here, and so is the value a
    field has after a write to it.  The accessors are run with the
    inherited members. *)
Definition perform (proto : gmap string accessor) (ev : event) : M unit :=
  match ev with
  | PropertyGet key => fun st =>
      match fields st !! key, proto !! key with
      | None, Some a => (get a ;; mret tt) st
      | _, _ => Ok (tt, st)
      end
  | PropertySet key v => fun st =>
      match fields st !! key, proto !! key with
      | None, Some a => set a v st
      | _, _ => Ok (tt, st)
      end
  | SetAttribute name v => setAttribute (Some name) v
  | RemoveAttribute name => removeAttribute (Some name)
  | FieldInit name l => fun st =>
      Ok (tt, {| idlAttributes := idlAttributes st;
                 attributes := attributes st;
                 fields := <[name := l]> (fields st);
                 heap := heap st;
                 calls := calls st |})
  | ObjectSet l key v => fun st =>
      Ok (tt, {| idlAttributes := idlAttributes st;
                 attributes := attributes st;
                 fields := fields st;
                 heap := <[l := <[key := v]> (object_at (heap st) l)]> (heap st);
                 calls := calls st |})
  end.

Fixpoint run (proto : gmap string accessor) (evs : list event) : M unit :=
  match evs with
  | [] => mret tt
  | ev :: rest => perform proto ev ;; run proto rest
  end.

(** The states an instance of a set-up component can be in, with the
    inherited members.  An event that throws has then changed nothing when
    it does, so the runs without exception reach every state. *)
Definition reachable (proto : gmap string accessor) (st : instance) : Prop :=
  exists element evs, run proto evs (with_idlAttributes element) = Ok (tt, st).

End Mixin.

(** ** Notions the properties are stated with *)

Import JS Host Mixin.

(** The accessors the [switch (attributeType)] picks for a configuration. *)
Definition accessor_of (config : AttributeConfig) : accessor :=
  if bool_decide (type config = Some "boolean") then boolean_accessor config
  else if bool_decide (type config = Some "number") then number_accessor config
  else default_accessor config.

(** The key a configuration's accessors are defined under. *)
Definition key_of (config : AttributeConfig) : string :=
  ToPropertyKey (idlName config).

(** The three shapes [#setupAttribute] refuses: proxyTarget without idlName,
    contentName with proxyTarget, readonly with neither proxyTarget nor
    defaultValue. *)
Definition proxy_without_idlName (config : AttributeConfig) : bool :=
  truthy (proxyTarget config) && negb (truthy (idlName config)).

Definition contentName_with_proxy (config : AttributeConfig) : bool :=
  truthy (proxyTarget config) && truthy (contentName config).

Definition readonly_without_source (config : AttributeConfig) : bool :=
  readonly config && negb (truthy (proxyTarget config))
  && negb (is_defined (defaultValue config)).

Definition refused (config : AttributeConfig) : bool :=
  proxy_without_idlName config || contentName_with_proxy config
  || readonly_without_source config.

(** [Base] is [HTMLElement] or inherits from it. *)
Definition conforms (Base : jsclass) : bool :=
  is_HTMLElement Base || prototype_instanceof_HTMLElement Base.

(** The class [attributesMixin] returns, with a sub class that declares no
    member under the key of a configuration: nothing is on the prototype
    under these keys.  Every class has a [constructor] on its prototype, so
    no configuration is under that key. *)
Definition new_component : component :=
  {| attributesReady := false; prototype := ∅ |}.

(** The contentName of each descriptor that has one set (a non-empty
    string), in the order of the descriptors. *)
Fixpoint declared_contentNames (descriptors : list AttributeConfig) : list string :=
  match descriptors with
  | [] => []
  | d :: rest =>
      match contentName d with
      | Some name =>
          if String.eqb name "" then declared_contentNames rest
          else name :: declared_contentNames rest
      | None => declared_contentNames rest
      end
  end.


(** Neither ['boolean'] nor ['number']: the [default] case of the switch. *)
Definition untyped (config : AttributeConfig) : Prop :=
  type config <> Some "boolean" /\ type config <> Some "number".

(** The last operand of the untyped getter's [||] chain. *)
Definition last_resort (config : AttributeConfig) : value :=
  if bool_decide (type config = Some "string") then VStr "" else VNull.

(** What the getter makes of defaultValue when nothing else is there:
    [Boolean(defaultValue)], [parseFloat(defaultValue) || null], or
    [defaultValue || ''] for type ['string'] and [defaultValue || null]
    otherwise. *)
Definition coerced_default (config : AttributeConfig) : value :=
  if bool_decide (type config = Some "boolean") then
    Boolean (defaultValue config)
  else if bool_decide (type config = Some "number") then
    (parseFloat (defaultValue config) || VNull)%js
  else (defaultValue config || last_resort config)%js.

(** Every key of the private store is the idlName of a configuration that
    is not readonly. *)
Definition written_by (configs : list AttributeConfig) (st : instance) : Prop :=
  forall key, is_Some (idlAttributes st !! key) ->
    exists config,
      In config configs /\ idlName config = key /\ readonly config = false.

(** Some configuration has its accessors under the key. *)
Definition has_key (configs : list AttributeConfig) (key : string) : bool :=
  bool_decide (key ∈ map key_of configs).

(** A member the accessors call on [this] is shadowed when the instance has
    a field, or the component an accessor, under its name. *)
Definition shadowed (configs : list AttributeConfig) (st : instance)
    (member : string) : bool :=
  bool_decide (is_Some (fields st !! member)) || has_key configs member.

(** The member a getter calls, and the member a setter calls for a value. *)
Definition called_by_get (config : AttributeConfig) : list string :=
  if truthy (proxyTarget config) || negb (truthy (contentName config)) then []
  else if bool_decide (type config = Some "boolean") then ["hasAttribute"]
  else ["getAttribute"].

Definition called_by_set (config : AttributeConfig) (v : value) : list string :=
  if readonly config then []
  else if negb (truthy (contentName config)) then ["attributeChangedCallback"]
  else if bool_decide (type config = Some "boolean") && negb (ToBoolean v)
       then ["removeAttribute"]
  else ["setAttribute"].

(** A key under which an assignment gives a plain object a data property of
    its own: every key but [__proto__]. *)
Definition data_key (key : string) : bool := negb (String.eqb key "__proto__").

(** ** Configurations and instances of the tests *)

Definition config_of (idl content proxy ty : option string) (dv : value)
    (ro : bool) : AttributeConfig :=
  {| idlName := idl; contentName := content; proxyTarget := proxy;
     type := ty; defaultValue := dv; readonly := ro |}.

(** The static [attributes] of the tests' [WebComponent]. *)
Definition WebComponent_attributes : list AttributeConfig :=
  [ config_of (Some "attributeX") None None None VUndefined false;
    config_of None (Some "content-attribute-a") None None VUndefined false;
    config_of (Some "attributeB") (Some "content-attribute-b") None None
      VUndefined false;
    config_of (Some "value") None (Some "proxyTargetA") None VUndefined false;
    config_of (Some "placeholder") None (Some "proxyTargetA") None VUndefined true;
    config_of (Some "proxyTargetNumber") None (Some "proxyTargetB")
      (Some "number") VUndefined false;
    config_of (Some "proxyTargetBoolean") None (Some "proxyTargetB")
      (Some "boolean") VUndefined false;
    config_of (Some "readonlyString") None None None (VStr "abc") true;
    config_of (Some "readonlyNumber") None None (Some "number") (VNum 123.456) true;
    config_of (Some "readonlyBoolean") None None (Some "boolean") (VBool true) true;
    config_of (Some "label") None (Some "proxyTargetB") None VUndefined false;
    config_of (Some "mabel") None (Some "proxyTargetB") None VUndefined true;
    config_of (Some "boolean") None None (Some "boolean") VUndefined false;
    config_of (Some "number") None None (Some "number") VUndefined false;
    config_of (Some "booleanThatReflects") (Some "boolean-that-reflects") None
      (Some "boolean") VUndefined false;
    config_of (Some "numberThatReflects") (Some "number-that-reflects") None
      (Some "number") VUndefined false ].

(** Some of them by name. *)
Definition attributeX : AttributeConfig :=
  config_of (Some "attributeX") None None None VUndefined false.

Definition content_attribute_a : AttributeConfig :=
  config_of None (Some "content-attribute-a") None None VUndefined false.


Definition label : AttributeConfig :=
  config_of (Some "label") None (Some "proxyTargetB") None VUndefined false.

Definition readonlyNumber : AttributeConfig :=
  config_of (Some "readonlyNumber") None None (Some "number") (VNum 123.456) true.


Definition numberThatReflects : AttributeConfig :=
  config_of (Some "numberThatReflects") (Some "number-that-reflects") None
    (Some "number") VUndefined false.

(** Variants with a defaultValue. *)
Definition count_proxy : AttributeConfig :=
  config_of (Some "count") None (Some "proxyTargetB") (Some "number") (VNum 5) false.

Definition title_proxy : AttributeConfig :=
  config_of (Some "title") None (Some "proxyTargetB") None (VStr "abc") false.

Definition checked_proxy : AttributeConfig :=
  config_of (Some "checked") None (Some "proxyTargetB") (Some "boolean")
    (VBool true) false.

Definition mabel_default : AttributeConfig :=
  config_of (Some "mabel") None (Some "proxyTargetB") None (VStr "abc") true.



(** A property that has the name of the hook. *)
Definition hook_property : AttributeConfig :=
  config_of (Some "attributeChangedCallback") None None None VUndefined false.

(** A number property with a contentName that is no name. *)
Definition spaced_number : AttributeConfig :=
  config_of (Some "spaced") (Some "a b") None (Some "number") VUndefined false.

(** A new element: no content attribute, no field. *)
Definition element_0 : instance :=
  {| idlAttributes := ∅; attributes := ∅; fields := ∅; heap := ∅; calls := [] |}.

(** An instance on which [attributeX] was set to ['abc'] before. *)
Definition element_abc : instance :=
  {| idlAttributes := {[ Some "attributeX" := VStr "abc" ]};
     attributes := ∅; fields := ∅; heap := ∅; calls := [] |}.

(** [proxyTargetB = { label: '', mabel: '', proxyTargetNumber: null }] *)
Definition proxyTargetB : gmap string value :=
  {[ "label" := VStr ""; "mabel" := VStr ""; "proxyTargetNumber" := VNull ]}.

(** An instance with that object in its field [proxyTargetB]. *)
Definition element_B : instance :=
  {| idlAttributes := ∅; attributes := ∅;
     fields := {[ "proxyTargetB" := 1%positive ]};
     heap := {[ 1%positive := proxyTargetB ]};
     calls := [] |}.

(** ** Notions of the further properties *)

(** The classes above [Base] on its chain of [extends]. *)
Fixpoint ancestors (Base : jsclass) : list jsclass :=
  match Base with
  | Extends _ super => super :: ancestors super
  | _ => []
  end.

(** What a computation returns, without the instance. *)
Definition returned {A : Type} (r : result (A * instance)) : result A :=
  match r with
  | Ok (a, _) => Ok a
  | Throw e => Throw e
  end.

(** A setter that gets as far as [attributeChangedCallback]: not readonly,
    no contentName. *)
Definition notifies (config : AttributeConfig) : bool :=
  negb (readonly config) && negb (reflectToContentAttribute config).

(** Every key of the private store is the idlName of a configuration that
    is not readonly and has no contentName. *)
Definition stored_by (configs : list AttributeConfig) (st : instance) : Prop :=
  forall key, is_Some (idlAttributes st !! key) ->
    exists config,
      In config configs /\ idlName config = key /\ notifies config = true.


(** What the getter of a property with a proxy target returns when the
    target holds [v] for it. *)
Definition read_proxied (config : AttributeConfig) (v : value) : value :=
  if bool_decide (type config = Some "boolean") then
    if is_defined v then Boolean v else Boolean (defaultValue config)
  else if bool_decide (type config = Some "number") then
    (parseFloat v || VNull)%js
  else v.

(** More of the tests' configurations. *)
Definition attributeB : AttributeConfig :=
  config_of (Some "attributeB") (Some "content-attribute-b") None None
    VUndefined false.

Definition booleanThatReflects : AttributeConfig :=
  config_of (Some "booleanThatReflects") (Some "boolean-that-reflects") None
    (Some "boolean") VUndefined false.

(** A list whose second configuration is refused. *)
Definition attributes_with_error : list AttributeConfig :=
  [ attributeX;
    config_of (Some "potato") None None None VUndefined true;
    attributeB ].

(** ** Properties *)

(** *** The conversions on the values of the tests *)

Example parseFloat_examples :
  parseFloat_string "123.456" = 123.456%float
  /\ parseFloat_string "123456.789" = 123456.789%float
  /\ parseFloat_string "  42px" = 42%float
  /\ parseFloat_string "-.5e1" = (-5)%float
  /\ parseFloat_string "1e23" = 1e23%float
  /\ parseFloat_string "0" = 0%float
  /\ parseFloat_string "-0" = (-0)%float
  /\ parseFloat_string "Infinity" = infinity
  /\ is_nan (parseFloat_string "abc") = true
  /\ is_nan (parseFloat_string "null") = true
  /\ is_nan (parseFloat_string "undefined") = true
  /\ is_nan (parseFloat_string "") = true.
Proof. repeat split; vm_compute; reflexivity. Qed.

Example ToString_examples :
  ToString (VNum 123) = "123"
  /\ ToString (VNum 123.456) = "123.456"
  /\ ToString (VNum 0) = "0"
  /\ ToString (VNum (-0)) = "0"
  /\ ToString (VNum 0.000001) = "0.000001"
  /\ ToString (VNum 1e-7) = "1e-7"
  /\ ToString (VNum 1e21) = "1e+21"
  /\ ToString (VNum 123456789012345680000) = "123456789012345680000"
  /\ ToString (VNum (0.1 + 0.2)) = "0.30000000000000004"
  /\ ToString (VNum nan) = "NaN"
  /\ ToString (VNum neg_infinity) = "-Infinity"
  /\ ToString VNull = "null"
  /\ ToString (VBool true) = "true".
Proof. repeat split; vm_compute; reflexivity. Qed.

(** The test of the number property that reflects, step by step. *)
Example numberThatReflects_test :
  let a := accessor_of numberThatReflects in
  get a element_0 = Ok (VNull, element_0)
  /\ exists st1 st2 st3,
       set a (VNum 123) element_0 = Ok (tt, st1)
       /\ get a st1 = Ok (VNum 123, st1)
       /\ attributes st1 !! "number-that-reflects" = Some "123"
       /\ set a (VStr "123.456") st1 = Ok (tt, st2)
       /\ get a st2 = Ok (VNum 123.456, st2)
       /\ attributes st2 !! "number-that-reflects" = Some "123.456"
       /\ setAttribute (Some "number-that-reflects") (VStr "123456.789") st2
          = Ok (tt, st3)
       /\ get a st3 = Ok (VNum 123456.789, st3).
Proof.
  split; [reflexivity|]. do 3 eexists.
  split; [reflexivity|]. split; [vm_compute; reflexivity|].
  split; [vm_compute; reflexivity|]. split; [reflexivity|].
  split; [vm_compute; reflexivity|]. split; [vm_compute; reflexivity|].
  split; [reflexivity|]. vm_compute. reflexivity.
Qed.

(** *** What [#setupAttribute] defines *)

Lemma setupAttribute_refused config proto :
  refused config = true ->
  exists message, setupAttribute config proto = Throw (Error message).
Proof.
  unfold refused, proxy_without_idlName, contentName_with_proxy,
    readonly_without_source, setupAttribute.
  intros H.
  destruct (truthy (proxyTarget config) && negb (truthy (idlName config)));
    [eauto|].
  destruct (truthy (proxyTarget config) && truthy (contentName config));
    [eauto|].
  destruct (readonly config && negb (truthy (proxyTarget config))
            && negb (is_defined (defaultValue config))); [eauto|].
  discriminate.
Qed.

Lemma setupAttribute_accepted config proto :
  refused config = false ->
  proto !! "constructor" = None ->
  setupAttribute config proto
  = defineProperty proto (idlName config) (accessor_of config).
Proof.
  unfold refused, proxy_without_idlName, contentName_with_proxy,
    readonly_without_source, setupAttribute, accessor_of, constructor_prototype.
  intros H Hk.
  apply orb_false_elim in H as [H Hd]. apply orb_false_elim in H as [Hb Hc].
  rewrite Hb, Hc, Hd, Hk.
  repeat case_bool_decide; reflexivity.
Qed.

(** Once accessors are under the key [constructor], no configuration that
    is not refused gets its accessors. *)
Lemma setupAttribute_constructor config proto :
  refused config = false ->
  is_Some (proto !! "constructor") ->
  exists message, setupAttribute config proto = Throw (TypeError message).
Proof.
  unfold refused, proxy_without_idlName, contentName_with_proxy,
    readonly_without_source, setupAttribute, constructor_prototype.
  intros H [a Hk].
  apply orb_false_elim in H as [H Hd]. apply orb_false_elim in H as [Hb Hc].
  rewrite Hb, Hc, Hd, Hk. eauto.
Qed.

Lemma setupAttribute_Ok config proto proto' :
  setupAttribute config proto = Ok proto' ->
  refused config = false
  /\ proto !! key_of config = None
  /\ proto' = <[key_of config := accessor_of config]> proto.
Proof.
  intros H.
  destruct (refused config) eqn:Hr.
  - destruct (setupAttribute_refused config proto Hr) as [m Hm]. congruence.
  - destruct (proto !! "constructor") as [a|] eqn:Hk.
    + destruct (setupAttribute_constructor config proto Hr) as [m Hm];
        [eauto|congruence].
    + rewrite (setupAttribute_accepted _ _ Hr Hk) in H.
      unfold defineProperty in H. fold (key_of config) in H.
      destruct (proto !! key_of config); [discriminate|].
      injection H as <-. auto.
Qed.

(** A configuration that is set up finds no accessors under the key
    [constructor]. *)
Lemma setupAttribute_Ok_constructor config proto proto' :
  setupAttribute config proto = Ok proto' -> proto !! "constructor" = None.
Proof.
  intros H. destruct (proto !! "constructor") as [a|] eqn:Hk; [|reflexivity].
  destruct (refused config) eqn:Hr.
  - destruct (setupAttribute_refused config proto Hr) as [m Hm]. congruence.
  - destruct (setupAttribute_constructor config proto Hr) as [m Hm];
      [eauto|congruence].
Qed.

Lemma setupAttribute_TypeError config proto message :
  setupAttribute config proto = Throw (TypeError message) ->
  refused config = false
  /\ (is_Some (proto !! key_of config) \/ is_Some (proto !! "constructor")).
Proof.
  intros H.
  destruct (refused config) eqn:Hr.
  - destruct (setupAttribute_refused config proto Hr) as [m Hm]. congruence.
  - split; [reflexivity|].
    destruct (proto !! "constructor") as [a|] eqn:Hk; [eauto|].
    rewrite (setupAttribute_accepted _ _ Hr Hk) in H.
    unfold defineProperty in H. fold (key_of config) in H.
    destruct (proto !! key_of config); [eauto|discriminate].
Qed.

(** What a successful [#setupAttributes] leaves on the prototype. *)
Lemma setupAttributes_Ok configs : forall proto proto',
  setupAttributes configs proto = (proto', None) ->
  Forall (fun config => refused config = false) configs
  /\ NoDup (map key_of configs)
  /\ (forall config, In config configs -> proto !! key_of config = None)
  /\ (forall config, In config configs ->
        proto' !! key_of config = Some (accessor_of config))
  /\ (forall key, ~ In key (map key_of configs) -> proto' !! key = proto !! key).
Proof.
  induction configs as [|c rest IH]; simpl; intros proto proto' H.
  - injection H as <-. repeat split; auto using NoDup_nil_2; tauto.
  - destruct (setupAttribute c proto) as [p1|e] eqn:Hc; [|discriminate].
    apply setupAttribute_Ok in Hc as (Hr & Hfree & ->).
    apply IH in H as (Hall & Hnd & Hnone & Hdef & Hother).
    assert (Hnotin : ~ In (key_of c) (map key_of rest)).
    { intros Hin. apply in_map_iff in Hin as (c' & Hk & Hin').
      specialize (Hnone c' Hin'). rewrite Hk, lookup_insert_eq in Hnone.
      discriminate. }
    repeat split.
    + constructor; assumption.
    + apply NoDup_cons_2; [|assumption].
      rewrite list_elem_of_In. assumption.
    + intros c' [<-|Hin]; [assumption|].
      specialize (Hnone c' Hin).
      destruct (decide (key_of c = key_of c')) as [Heq|Hne].
      * rewrite Heq, lookup_insert_eq in Hnone. discriminate.
      * rewrite lookup_insert_ne in Hnone; assumption.
    + intros c' [<-|Hin]; [|auto].
      rewrite (Hother _ Hnotin). apply lookup_insert_eq.
    + intros k Hk. rewrite Hother by tauto.
      apply lookup_insert_ne. tauto.
Qed.

(** Every accessor on the prototype comes from a configuration. *)
Lemma setupAttributes_origin configs proto' key a :
  setupAttributes configs ∅ = (proto', None) ->
  proto' !! key = Some a ->
  exists config, In config configs /\ key = key_of config /\ a = accessor_of config.
Proof.
  intros H Ha.
  apply setupAttributes_Ok in H as (_ & _ & _ & Hdef & Hother).
  destruct (in_dec String.string_dec key (map key_of configs)) as [Hin|Hout].
  - apply in_map_iff in Hin as (c & <- & Hin).
    rewrite (Hdef c Hin) in Ha. injection Ha as <-. eauto.
  - rewrite (Hother _ Hout), lookup_empty in Ha. discriminate.
Qed.

(** The configurations of the tests set up without an exception. *)
Lemma WebComponent_set_up :
  setupAttributes WebComponent_attributes ∅
  = (fst (setupAttributes WebComponent_attributes ∅), None).
Proof.
  assert (H : snd (setupAttributes WebComponent_attributes ∅) = None)
    by (vm_compute; reflexivity).
  destruct (setupAttributes WebComponent_attributes ∅) as [p e].
  simpl in *. rewrite H. reflexivity.
Defined.

(** *** What the accessors do *)

Arguments JS.logical_or : simpl never.
Arguments JS.parseFloat : simpl never.
Arguments JS.ToString : simpl never.
Arguments JS.ToBoolean : simpl never.

Ltac unfold_M :=
  unfold mbind, M_bind, mret, M_ret, map_get, map_set, attributeChangedCallback,
    hasAttribute, getAttribute, setAttribute, removeAttribute, proxy_get,
    proxy_set, reflectToContentAttribute in *.

Ltac by_type config :=
  unfold accessor_of;
  destruct (bool_decide (type config = Some "boolean"));
  [|destruct (bool_decide (type config = Some "number"))];
  simpl.


(** A configuration with a proxy target that is accepted has no contentName. *)
Lemma accepted_proxy_no_contentName config :
  refused config = false ->
  truthy (proxyTarget config) = true ->
  truthy (contentName config) = false.
Proof.
  unfold refused, contentName_with_proxy. intros H Hp. rewrite Hp in H.
  destruct (truthy (contentName config)); [|reflexivity].
  rewrite orb_true_r in H. discriminate.
Qed.

Lemma set_readonly config v st :
  readonly config = true -> set (accessor_of config) v st = Ok (tt, st).
Proof. intros H. by_type config; rewrite H; reflexivity. Qed.

Lemma set_nonreflecting config v st :
  readonly config = false ->
  truthy (proxyTarget config) = false ->
  truthy (contentName config) = false ->
  set (accessor_of config) v st
  = Ok (tt, {| idlAttributes := <[idlName config := v]> (idlAttributes st);
               attributes := attributes st;
               fields := fields st;
               heap := heap st;
               calls := calls st
                        ++ [(of_name (idlName config),
                             default VUndefined (idlAttributes st !! idlName config),
                             v)] |}).
Proof.
  intros Hr Hp Hc. by_type config; unfold_M; rewrite Hr, Hp, Hc; reflexivity.
Qed.

Lemma set_proxy config v st l :
  readonly config = false ->
  truthy (proxyTarget config) = true ->
  truthy (contentName config) = false ->
  fields st !! ToPropertyKey (proxyTarget config) = Some l ->
  set (accessor_of config) v st
  = Ok (tt, {| idlAttributes := <[idlName config := v]> (idlAttributes st);
               attributes := attributes st;
               fields := fields st;
               heap := <[l := <[key_of config := v]> (object_at (heap st) l)]>
                         (heap st);
               calls := calls st
                        ++ [(of_name (idlName config),
                             default VUndefined (idlAttributes st !! idlName config),
                             v)] |}).
Proof.
  intros Hr Hp Hc Hl.
  by_type config; unfold_M; rewrite Hr, Hp, Hc, Hl; reflexivity.
Qed.

Lemma set_proxy_missing config v st :
  readonly config = false ->
  truthy (proxyTarget config) = true ->
  fields st !! ToPropertyKey (proxyTarget config) = None ->
  exists message, set (accessor_of config) v st = Throw (TypeError message).
Proof.
  intros Hr Hp Hl.
  by_type config; unfold_M; rewrite Hr, Hp, Hl; eauto.
Qed.

Lemma set_reflecting config v st :
  readonly config = false ->
  truthy (proxyTarget config) = false ->
  truthy (contentName config) = true ->
  valid_attribute_name (ToPropertyKey (contentName config)) = true ->
  exists attributes',
    set (accessor_of config) v st
    = Ok (tt, {| idlAttributes := idlAttributes st;
                 attributes := attributes';
                 fields := fields st;
                 heap := heap st;
                 calls := calls st |})
    /\ (type config <> Some "boolean" ->
        attributes'
        = <[lower (ToPropertyKey (contentName config)) := ToString v]>
            (attributes st)).
Proof.
  intros Hr Hp Hc Hv. unfold accessor_of.
  case_bool_decide as Hb; [|case_bool_decide as Hn];
    simpl; unfold_M; rewrite Hr, Hp, Hc; simpl; rewrite ?Hv.
  - destruct (ToBoolean v); rewrite ?Hv; eexists;
      (split; [reflexivity|congruence]).
  - eexists; split; [reflexivity|reflexivity].
  - eexists; split; [reflexivity|reflexivity].
Qed.

(** A write with a contentName that is no name throws. *)
Lemma set_invalid_name config v st :
  readonly config = false ->
  truthy (proxyTarget config) = false ->
  truthy (contentName config) = true ->
  valid_attribute_name (ToPropertyKey (contentName config)) = false ->
  type config <> Some "boolean" \/ ToBoolean v = true ->
  exists name message,
    set (accessor_of config) v st = Throw (DOMException name message).
Proof.
  intros Hr Hp Hc Hv Hcase. unfold accessor_of.
  case_bool_decide as Hb; [|case_bool_decide as Hn];
    simpl; unfold_M; rewrite Hr, Hp, Hc; simpl; rewrite ?Hv; eauto.
  destruct Hcase as [Hcase|Hcase]; [congruence|].
  rewrite Hcase. eauto.
Qed.

(** Reading never changes the instance. *)
Lemma get_pure config st v st' :
  get (accessor_of config) st = Ok (v, st') -> st' = st.
Proof.
  by_type config; unfold_M;
    destruct (truthy (proxyTarget config));
    try destruct (fields st !! ToPropertyKey (proxyTarget config));
    try destruct (truthy (contentName config)); simpl;
    intros H; try discriminate; injection H as _ <-; reflexivity.
Qed.


(** *** The accessors on an element of a component *)

Lemma find_config_None configs member :
  member ∉ map key_of configs -> find_config configs member = None.
Proof.
  unfold find_config. induction configs as [|c rest IH]; simpl; [reflexivity|].
  intros H. apply not_elem_of_cons in H as [Hne Hrest].
  fold (key_of c). destruct (String.eqb_spec (key_of c) member) as [Heq|_].
  - congruence.
  - apply IH. assumption.
Qed.

Lemma find_config_In configs member :
  member ∈ map key_of configs ->
  exists config, find_config configs member = Some config /\ key_of config = member.
Proof.
  unfold find_config. induction configs as [|c rest IH]; simpl.
  - intros H. inversion H.
  - intros H. fold (key_of c).
    destruct (String.eqb_spec (key_of c) member) as [Heq|Hne]; [eauto|].
    apply elem_of_cons in H as [H|H]; [congruence|auto].
Qed.

(** A member that is not shadowed is the inherited one. *)
Lemma method_inherited {A} configs getter member (m : M A) st :
  shadowed configs st member = false ->
  method configs getter member m st = m st.
Proof.
  unfold shadowed, has_key, method. intros H.
  apply orb_false_elim in H as [Hf Hc].
  apply bool_decide_eq_false in Hf. apply bool_decide_eq_false in Hc.
  destruct (fields st !! member); [exfalso; eauto|].
  rewrite find_config_None by assumption. reflexivity.
Qed.

(** A member that is shadowed throws. *)
Lemma method_shadowed {A} configs getter member (m : M A) st :
  shadowed configs st member = true ->
  exists e, method configs getter member m st = Throw e.
Proof.
  unfold shadowed, has_key, method. intros H.
  destruct (fields st !! member); [eauto|].
  apply orb_true_iff in H as [H|H].
  - apply bool_decide_eq_true in H. destruct H. discriminate.
  - apply bool_decide_eq_true in H.
    destruct (find_config_In _ _ H) as (c & -> & _).
    destruct (getter c st) as [[]|]; eauto.
Qed.

Ltac unfold_accessors :=
  unfold installed, accessor_on, accessor_of, boolean_accessor,
    number_accessor, default_accessor, boolean_accessor_on,
    number_accessor_on, default_accessor_on.

(** With the members it calls not shadowed, an accessor on an element does
    what it does with the inherited members. *)
Lemma installed_get configs config st :
  Forall (fun member => shadowed configs st member = false)
    (called_by_get config) ->
  get (installed configs config) st = get (accessor_of config) st.
Proof.
  unfold called_by_get. unfold_accessors.
  destruct (bool_decide (type config = Some "boolean"));
    [|destruct (bool_decide (type config = Some "number"))];
    simpl; unfold_M;
    destruct (truthy (proxyTarget config)); simpl; try reflexivity;
    destruct (truthy (contentName config)); simpl; try reflexivity;
    intros H; apply Forall_cons in H as [H _];
    rewrite (method_inherited _ _ _ _ _ H); reflexivity.
Qed.

Lemma installed_set configs config v st :
  Forall (fun member => shadowed configs st member = false)
    (called_by_set config v) ->
  set (installed configs config) v st = set (accessor_of config) v st.
Proof.
  unfold called_by_set. unfold_accessors.
  destruct (bool_decide (type config = Some "boolean"));
    [|destruct (bool_decide (type config = Some "number"))];
    simpl; unfold_M;
    destruct (readonly config); simpl; try reflexivity;
    destruct (truthy (proxyTarget config)); simpl;
    try destruct (fields st !! ToPropertyKey (proxyTarget config)); simpl;
    try reflexivity;
    destruct (truthy (contentName config)); simpl;
    try destruct (ToBoolean v); simpl;
    intros H; apply Forall_cons in H as [H _];
    rewrite method_inherited by exact H; reflexivity.
Qed.

(** Members taken by properties.  A property named [getAttribute] that
    reflects reads itself without end.  A property named
    [attributeChangedCallback] is what a setter finds for the hook: it is
    read, through [getAttribute] when it reflects, and its value is called. *)
Example shadowed_member_examples :
  let g := config_of (Some "getAttribute") (Some "x") None None VUndefined false in
  let h := config_of (Some "attributeChangedCallback") (Some "h") None None
             VUndefined false in
  let p := config_of (Some "p") None None None VUndefined false in
  get (installed [g] g) element_0
  = Throw (RangeError "Maximum call stack size exceeded")
  /\ get (installed [h; p] h) element_0 = Ok (VStr "", element_0)
  /\ set (installed [h; p] p) (VNum 1) element_0
     = Throw (TypeError "this.attributeChangedCallback is not a function")
  /\ set (installed [h; p] p) (VNum 1)
       {| idlAttributes := ∅; attributes := ∅;
          fields := {[ "attributeChangedCallback" := 1%positive ]};
          heap := ∅; calls := [] |}
     = Throw (TypeError "this.attributeChangedCallback is not a function").
Proof. repeat split. Qed.

Lemma called_by_set_nonreflecting config v :
  readonly config = false ->
  truthy (contentName config) = false ->
  called_by_set config v = ["attributeChangedCallback"].
Proof. unfold called_by_set. intros -> ->. reflexivity. Qed.

Lemma called_by_set_reflecting config v :
  readonly config = false ->
  truthy (contentName config) = true ->
  type config <> Some "boolean" \/ ToBoolean v = true ->
  called_by_set config v = ["setAttribute"].
Proof.
  unfold called_by_set. intros -> -> [H|H]; simpl.
  - rewrite bool_decide_eq_false_2 by assumption. reflexivity.
  - rewrite H, andb_false_r. reflexivity.
Qed.

Lemma called_by_get_reflecting config :
  truthy (proxyTarget config) = false ->
  truthy (contentName config) = true ->
  type config <> Some "boolean" ->
  called_by_get config = ["getAttribute"].
Proof.
  unfold called_by_get. intros -> -> H. simpl.
  rewrite bool_decide_eq_false_2 by assumption. reflexivity.
Qed.

Lemma called_by_get_no_contentName config :
  truthy (contentName config) = false -> called_by_get config = [].
Proof. unfold called_by_get. intros ->. rewrite orb_true_r. reflexivity. Qed.

(** A configuration of a set-up component is not refused. *)
Lemma set_up_accepted configs proto config :
  setupAttributes configs ∅ = (proto, None) ->
  In config configs ->
  refused config = false.
Proof.
  intros H Hin. apply setupAttributes_Ok in H as (Hall & _).
  rewrite Forall_forall in Hall. apply Hall, list_elem_of_In. assumption.
Qed.

(** *** Writes to a property without contentName *)

(** C6, as stated, fails for a property that has the name of the hook.
    With [{ idlName: 'attributeChangedCallback' }] the setter's
    [this.attributeChangedCallback] is that property, read through its
    getter: the write ends in a TypeError where the hook was to be called. *)
Lemma write_to_property_named_as_hook :
  truthy (idlName hook_property) = true
  /\ truthy (contentName hook_property) = false
  /\ truthy (proxyTarget hook_property) = false
  /\ readonly hook_property = false
  /\ snd (setupAttributes [hook_property] ∅) = None
  /\ set (installed [hook_property] hook_property) (VStr "abc") element_0
     = Throw (TypeError "this.attributeChangedCallback is not a function").
Proof. repeat split. Qed.

(** C6, amended: for a property with idlName, without contentName or
    proxyTarget and not readonly, on an element on which
    [attributeChangedCallback] is the hook (no property of the component
    and no field of the instance has that name), a write [set(v)] through
    the installed setter reads the old value from the private store, stores
    [v] there and invokes [attributeChangedCallback] exactly once, with
    [(idlName, oldValue, v)], whatever [oldValue] and [v] are (equal or
    not); the content attributes are left as they were. *)
Theorem nonreflecting_write configs proto config v st :
  setupAttributes configs ∅ = (proto, None) ->
  In config configs ->
  truthy (idlName config) = true ->
  truthy (contentName config) = false ->
  truthy (proxyTarget config) = false ->
  readonly config = false ->
  shadowed configs st "attributeChangedCallback" = false ->
  exists st',
    set (installed configs config) v st = Ok (tt, st')
    /\ idlAttributes st' = <[idlName config := v]> (idlAttributes st)
    /\ calls st'
       = (calls st ++ [(of_name (idlName config),
                        default VUndefined (idlAttributes st !! idlName config),
                        v)])%list
    /\ attributes st' = attributes st
    /\ fields st' = fields st
    /\ heap st' = heap st.
Proof.
  intros _ _ _ Hc Hp Hr Hhook.
  rewrite installed_set
    by (rewrite called_by_set_nonreflecting by assumption; auto).
  eexists. split; [apply set_nonreflecting; assumption|].
  simpl. repeat split.
Qed.

Lemma nonreflecting_write_witness :
  exists st',
    set (installed WebComponent_attributes attributeX) (VStr "abc") element_abc
    = Ok (tt, st')
    /\ idlAttributes st'
       = <[Some "attributeX" := VStr "abc"]> (idlAttributes element_abc)
    /\ calls st' = [(VStr "attributeX", VStr "abc", VStr "abc")]
    /\ attributes st' = attributes element_abc
    /\ fields st' = fields element_abc
    /\ heap st' = heap element_abc.
Proof.
  apply (nonreflecting_write WebComponent_attributes
           (fst (setupAttributes WebComponent_attributes ∅))
           attributeX (VStr "abc") element_abc).
  - exact WebComponent_set_up.
  - left. reflexivity.
  - reflexivity.
  - reflexivity.
  - reflexivity.
  - reflexivity.
  - reflexivity.
Defined.

(** *** Properties with a proxy target *)

(** C1, as stated, fails: [element.label = '123'] on a new element also puts
    ['123'] in the private store and invokes [attributeChangedCallback]. *)
Lemma proxy_write_stores_and_notifies :
  truthy (proxyTarget label) = true
  /\ readonly label = false
  /\ (exists proto', setupAttribute label ∅ = Ok proto'
                     /\ proto' !! "label" = Some (accessor_of label))
  /\ exists st',
       set (accessor_of label) (VStr "123") element_B = Ok (tt, st')
       /\ idlAttributes element_B !! Some "label" = None
       /\ idlAttributes st' !! Some "label" = Some (VStr "123")
       /\ idlAttributes st' <> idlAttributes element_B
       /\ calls element_B = []
       /\ calls st' = [(VStr "label", VUndefined, VStr "123")].
Proof.
  split; [reflexivity|]. split; [reflexivity|]. split.
  - exists (<[key_of label := accessor_of label]> ∅).
    split; [reflexivity|apply lookup_insert_eq].
  - eexists. split.
    + apply (set_proxy label (VStr "123") element_B 1%positive); reflexivity.
    + simpl. split; [apply lookup_empty|].
      split; [apply lookup_insert_eq|]. split; [|split; reflexivity].
      intros H. apply (f_equal (fun m => m !! Some "label")) in H.
      rewrite lookup_insert_eq, lookup_empty in H. discriminate.
Qed.

(** C1, amended: for a configuration with proxyTarget, on an instance that
    has a plain object in a field of that name and on which
    [attributeChangedCallback] is the hook (no property of the component
    and no field of the instance has that name), a write through the
    installed setter (readonly not true, idlName other than [__proto__])
    assigns [instance[proxyTarget][idlName] = value] and then, as for every
    property without contentName, stores the value in the private store
    under idlName and invokes [attributeChangedCallback] once with
    [(idlName, the value stored before or undefined, value)]; the content
    attributes and the fields of the instance are left as they were. *)
Theorem proxy_write configs proto config v st l :
  setupAttributes configs ∅ = (proto, None) ->
  In config configs ->
  truthy (proxyTarget config) = true ->
  readonly config = false ->
  fields st !! ToPropertyKey (proxyTarget config) = Some l ->
  data_key (key_of config) = true ->
  shadowed configs st "attributeChangedCallback" = false ->
  exists st',
    set (installed configs config) v st = Ok (tt, st')
    /\ heap st' = <[l := <[key_of config := v]> (object_at (heap st) l)]> (heap st)
    /\ idlAttributes st' = <[idlName config := v]> (idlAttributes st)
    /\ calls st'
       = (calls st ++ [(of_name (idlName config),
                        default VUndefined (idlAttributes st !! idlName config),
                        v)])%list
    /\ attributes st' = attributes st
    /\ fields st' = fields st.
Proof.
  intros H Hin Hp Hr Hl _ Hhook.
  pose proof (set_up_accepted _ _ _ H Hin) as Hacc.
  pose proof (accepted_proxy_no_contentName _ Hacc Hp) as Hc.
  rewrite installed_set
    by (rewrite called_by_set_nonreflecting by assumption; auto).
  eexists. split.
  - apply set_proxy; eauto.
  - simpl. repeat split.
Qed.

Lemma proxy_write_witness :
  exists st',
    set (installed WebComponent_attributes label) (VStr "123") element_B
    = Ok (tt, st')
    /\ heap st'
       = <[1%positive := <["label" := VStr "123"]> (object_at (heap element_B) 1)]>
           (heap element_B)
    /\ idlAttributes st' = <[Some "label" := VStr "123"]> (idlAttributes element_B)
    /\ calls st' = [(VStr "label", VUndefined, VStr "123")]
    /\ attributes st' = attributes element_B
    /\ fields st' = fields element_B.
Proof.
  apply (proxy_write WebComponent_attributes
           (fst (setupAttributes WebComponent_attributes ∅))
           label (VStr "123") element_B 1%positive).
  - exact WebComponent_set_up.
  - do 10 right. left. reflexivity.
  - reflexivity.
  - reflexivity.
  - reflexivity.
  - reflexivity.
  - reflexivity.
Defined.

(** *** Reading through a proxy target *)

(** The getter of a boolean property with a proxy target: the proxied value
    as a boolean, and [defaultValue] as a boolean when it is undefined. *)
Lemma proxy_get_boolean config st l :
  type config = Some "boolean" ->
  truthy (proxyTarget config) = true ->
  fields st !! ToPropertyKey (proxyTarget config) = Some l ->
  get (accessor_of config) st
  = Ok (match object_at (heap st) l !! key_of config with
        | Some VUndefined | None => Boolean (defaultValue config)
        | Some v => Boolean v
        end, st).
Proof.
  intros Ht Hp Hl. unfold accessor_of. rewrite bool_decide_eq_true_2 by assumption.
  simpl. unfold_M. rewrite Hp, Hl. unfold key_of.
  destruct (object_at (heap st) l !! ToPropertyKey (idlName config)) as [[]|];
    reflexivity.
Qed.

(** The getters of a number and of an untyped property with a proxy target:
    [defaultValue] has no part in them. *)
Lemma proxy_get_number config st l :
  type config = Some "number" ->
  truthy (proxyTarget config) = true ->
  fields st !! ToPropertyKey (proxyTarget config) = Some l ->
  get (accessor_of config) st
  = Ok ((parseFloat (default VUndefined (object_at (heap st) l !! key_of config))
         || VNull)%js, st).
Proof.
  intros Ht Hp Hl. unfold accessor_of.
  rewrite bool_decide_eq_false_2 by (rewrite Ht; discriminate).
  rewrite bool_decide_eq_true_2 by assumption.
  simpl. unfold_M. rewrite Hp, Hl. reflexivity.
Qed.

Lemma proxy_get_untyped config st l :
  untyped config ->
  truthy (proxyTarget config) = true ->
  fields st !! ToPropertyKey (proxyTarget config) = Some l ->
  get (accessor_of config) st
  = Ok (default VUndefined (object_at (heap st) l !! key_of config), st).
Proof.
  intros [Hb Hn] Hp Hl. unfold accessor_of.
  rewrite !bool_decide_eq_false_2 by assumption.
  simpl. unfold_M. rewrite Hp, Hl. reflexivity.
Qed.

(** C2 at three properties absent from [proxyTargetB], each with a
    defaultValue: the boolean getter falls back on it; the number getter
    returns [null] and the untyped getter [undefined]. *)
Theorem proxy_get_undefined :
  object_at (heap element_B) 1 !! "checked" = None
  /\ get (accessor_of checked_proxy) element_B = Ok (VBool true, element_B)
  /\ object_at (heap element_B) 1 !! "count" = None
  /\ parseFloat (defaultValue count_proxy) = VNum 5
  /\ get (accessor_of count_proxy) element_B = Ok (VNull, element_B)
  /\ object_at (heap element_B) 1 !! "title" = None
  /\ defaultValue title_proxy = VStr "abc"
  /\ get (accessor_of title_proxy) element_B = Ok (VUndefined, element_B).
Proof. repeat split; vm_compute; reflexivity. Qed.

(** *** Number properties that reflect to a content attribute *)

Lemma or_truthy a b : ToBoolean a = true -> (a || b)%js = a.
Proof. unfold logical_or. intros ->. reflexivity. Qed.


(** [parseFloat] sees its argument through [ToString] only. *)
Lemma parseFloat_ToString v : parseFloat (VStr (ToString v)) = parseFloat v.
Proof. reflexivity. Qed.

Lemma accepted_contentName_no_proxy config :
  refused config = false ->
  truthy (contentName config) = true ->
  truthy (proxyTarget config) = false.
Proof.
  unfold refused, contentName_with_proxy. intros H Hc. rewrite Hc in H.
  destruct (truthy (proxyTarget config)); [|reflexivity].
  rewrite orb_true_r in H. discriminate.
Qed.

Lemma get_reflecting_number config st :
  type config = Some "number" ->
  truthy (proxyTarget config) = false ->
  truthy (contentName config) = true ->
  get (accessor_of config) st
  = Ok ((parseFloat (from_option VStr VNull
                       (attributes st !! lower (ToPropertyKey (contentName config))))
         || parseFloat (defaultValue config) || VNull)%js, st).
Proof.
  intros Ht Hp Hc. unfold accessor_of.
  rewrite bool_decide_eq_false_2 by (rewrite Ht; discriminate).
  rewrite bool_decide_eq_true_2 by assumption.
  simpl. unfold_M. rewrite Hp, Hc. reflexivity.
Qed.

(** C3, as stated, fails at [x = 0]: the floating-point parse of 0 is 0, and
    [get()] after [set(0)] is [null]. *)
Lemma reflecting_number_zero :
  (exists proto', setupAttribute numberThatReflects ∅ = Ok proto'
                  /\ proto' !! "numberThatReflects"
                     = Some (accessor_of numberThatReflects))
  /\ parseFloat (VNum 0) = VNum 0
  /\ exists st1,
       set (accessor_of numberThatReflects) (VNum 0) element_0 = Ok (tt, st1)
       /\ attributes st1 !! "number-that-reflects" = Some "0"
       /\ get (accessor_of numberThatReflects) st1 = Ok (VNull, st1)
       /\ get (accessor_of numberThatReflects) st1
          <> Ok (parseFloat (VNum 0), st1).
Proof.
  assert (Hparse : parseFloat (VNum 0) = VNum 0) by (vm_compute; reflexivity).
  split.
  - exists (<[key_of numberThatReflects := accessor_of numberThatReflects]> ∅).
    split; [reflexivity|apply lookup_insert_eq].
  - split; [exact Hparse|].
    eexists. split; [reflexivity|]. split; [vm_compute; reflexivity|].
    assert (Hget : forall st,
              attributes st !! "number-that-reflects" = Some "0" ->
              get (accessor_of numberThatReflects) st = Ok (VNull, st)).
    { intros st Hst. rewrite get_reflecting_number by reflexivity.
      change (lower (ToPropertyKey (contentName numberThatReflects)))
        with "number-that-reflects".
      rewrite Hst. vm_compute. reflexivity. }
    split; [apply Hget; vm_compute; reflexivity|].
    rewrite Hget by (vm_compute; reflexivity). rewrite Hparse. discriminate.
Qed.

(** A contentName that is no attribute name: the write throws. *)
Lemma reflecting_number_invalid_name :
  valid_attribute_name "a b" = false
  /\ snd (setupAttributes [spaced_number] ∅) = None
  /\ set (installed [spaced_number] spaced_number) (VNum 1) element_0
     = Throw (DOMException "InvalidCharacterError"
                "String contains an invalid character").
Proof. repeat split. Qed.

(** C3, amended: for a number property with idlName and a contentName that
    is an attribute name, on an element on which [setAttribute] and
    [getAttribute] are the host's (no property of the component and no
    field of the instance has these names), [set(x)] followed by [get()]
    returns the floating-point parse of [x] when that is neither 0 nor NaN;
    when it is, [get()] returns the parse of defaultValue if that is
    neither 0 nor NaN, and [null] otherwise (readonly not true).  After the
    content attribute is set to ["123.456"], [get()] returns 123.456. *)
Theorem reflecting_number configs proto config st :
  setupAttributes configs ∅ = (proto, None) ->
  In config configs ->
  truthy (idlName config) = true ->
  truthy (contentName config) = true ->
  type config = Some "number" ->
  valid_attribute_name (ToPropertyKey (contentName config)) = true ->
  shadowed configs st "setAttribute" = false ->
  shadowed configs st "getAttribute" = false ->
  (readonly config = false ->
   forall x, exists st1,
     set (installed configs config) x st = Ok (tt, st1)
     /\ get (installed configs config) st1
        = Ok ((parseFloat x || parseFloat (defaultValue config) || VNull)%js, st1)
     /\ (ToBoolean (parseFloat x) = true ->
         get (installed configs config) st1 = Ok (parseFloat x, st1)))
  /\ (exists st1,
        setAttribute (contentName config) (VStr "123.456") st = Ok (tt, st1)
        /\ get (installed configs config) st1 = Ok (VNum 123.456, st1)).
Proof.
  intros H Hin _ Hc Ht Hv Hset Hget.
  pose proof (set_up_accepted _ _ _ H Hin) as Hacc.
  pose proof (accepted_contentName_no_proxy _ Hacc Hc) as Hp.
  assert (Hnb : type config <> Some "boolean") by (rewrite Ht; discriminate).
  assert (Hread : forall attributes',
            get (installed configs config)
              {| idlAttributes := idlAttributes st;
                 attributes := attributes';
                 fields := fields st;
                 heap := heap st;
                 calls := calls st |}
            = get (accessor_of config)
                {| idlAttributes := idlAttributes st;
                   attributes := attributes';
                   fields := fields st;
                   heap := heap st;
                   calls := calls st |}).
  { intros attributes'. apply installed_get.
    rewrite called_by_get_reflecting by assumption.
    constructor; [exact Hget|constructor]. }
  split.
  - intros Hr x.
    rewrite installed_set
      by (rewrite called_by_set_reflecting by auto; auto).
    destruct (set_reflecting config x st Hr Hp Hc Hv) as (attrs & Hwrite & Hattrs).
    rewrite Hattrs in Hwrite by assumption.
    eexists. split; [exact Hwrite|].
    rewrite Hread, get_reflecting_number by assumption. simpl.
    rewrite lookup_insert_eq. simpl. rewrite parseFloat_ToString.
    split; [reflexivity|].
    intros Hx. rewrite (or_truthy (parseFloat x)) by assumption.
    rewrite or_truthy by assumption. reflexivity.
  - unfold setAttribute. rewrite Hv.
    eexists. split; [reflexivity|].
    rewrite Hread, get_reflecting_number by assumption. simpl.
    rewrite lookup_insert_eq. simpl. rewrite parseFloat_ToString.
    assert (Hparse : parseFloat (VStr "123.456") = VNum 123.456)
      by (vm_compute; reflexivity).
    assert (Htrue : ToBoolean (VNum 123.456) = true)
      by (vm_compute; reflexivity).
    rewrite Hparse, !or_truthy by assumption. reflexivity.
Qed.

Lemma reflecting_number_witness :
  (readonly numberThatReflects = false ->
   forall x, exists st1,
     set (installed WebComponent_attributes numberThatReflects) x element_0
     = Ok (tt, st1)
     /\ get (installed WebComponent_attributes numberThatReflects) st1
        = Ok ((parseFloat x || parseFloat (defaultValue numberThatReflects)
               || VNull)%js, st1)
     /\ (ToBoolean (parseFloat x) = true ->
         get (installed WebComponent_attributes numberThatReflects) st1
         = Ok (parseFloat x, st1)))
  /\ (exists st1,
        setAttribute (contentName numberThatReflects) (VStr "123.456") element_0
        = Ok (tt, st1)
        /\ get (installed WebComponent_attributes numberThatReflects) st1
           = Ok (VNum 123.456, st1)).
Proof.
  apply (reflecting_number WebComponent_attributes
           (fst (setupAttributes WebComponent_attributes ∅))
           numberThatReflects element_0).
  - exact WebComponent_set_up.
  - do 15 right. left. reflexivity.
  - reflexivity.
  - reflexivity.
  - reflexivity.
  - reflexivity.
  - reflexivity.
  - reflexivity.
Defined.

(** *** Errors *)

Lemma attributesMixin_conforms Base :
  conforms Base = true -> attributesMixin Base = Ok new_component.
Proof.
  unfold conforms, attributesMixin. intros H.
  apply orb_true_iff in H as [-> | ->]; [reflexivity|].
  rewrite andb_false_r. reflexivity.
Qed.

Lemma attributesMixin_throws Base :
  conforms Base = false ->
  exists message, attributesMixin Base = Throw (Error message).
Proof.
  unfold conforms, attributesMixin. intros H.
  apply orb_false_elim in H as [-> ->]. simpl. eauto.
Qed.






(** Two configurations under one key: the second definition is a TypeError,
    though neither configuration is refused. *)
Lemma repeated_key_throws :
  let a := {| idlName := None; contentName := Some "content-attribute-a";
              proxyTarget := None; type := None; defaultValue := VUndefined;
              readonly := false |} in
  let b := {| idlName := None; contentName := Some "content-attribute-b";
              proxyTarget := None; type := None; defaultValue := VUndefined;
              readonly := false |} in
  refused a = false /\ refused b = false
  /\ exists message,
       snd (constructor [a; b] new_component element_0)
       = Throw (TypeError message).
Proof. split; [reflexivity|]. split; [reflexivity|]. eexists. reflexivity. Qed.

(** Accessors under the key [constructor] take [this.constructor] away from
    [#setupAttribute]: a configuration after them is not set up, though
    none is refused and the keys differ.  As the last configuration they do
    no harm to the first construction. *)
Lemma constructor_key_throws :
  let c := config_of (Some "constructor") None None None VUndefined false in
  let x := config_of (Some "x") None None None VUndefined false in
  refused c = false /\ refused x = false
  /\ key_of c <> key_of x
  /\ (exists message,
        snd (constructor [c; x] new_component element_0)
        = Throw (TypeError message))
  /\ snd (constructor [x; c] new_component element_0) = Ok element_0.
Proof.
  split; [reflexivity|]. split; [reflexivity|]. split; [discriminate|].
  split; [eexists; reflexivity|reflexivity].
Qed.



(** The classes of the tests that [attributesMixin] refuses. *)
Example attributesMixin_refuses :
  conforms (Extends "A" (Rooted "Element")) = false
  /\ conforms (Extends "B" (Rooted "Node")) = false
  /\ conforms (Rooted "C") = false
  /\ attributesMixin (Rooted "C")
     = Throw (Error "Base parameter must be HTMLElement or a class that extends from or inherits HTMLElement. Received C which is not an instance of HTMLElement.")
  /\ conforms (Extends "WebComponent" (Extends "Mixin" HTMLElement)) = true.
Proof. repeat split. Qed.

(** *** A configuration with contentName only *)

(** An accepted configuration always gets accessors, under the key its
    idlName converts to. *)
Lemma setupAttribute_defines config proto proto' :
  setupAttribute config proto = Ok proto' ->
  proto' !! ToPropertyKey (idlName config) = Some (accessor_of config).
Proof.
  intros H. apply setupAttribute_Ok in H as (_ & _ & ->).
  apply lookup_insert_eq.
Qed.

(** C5 at [{ contentName: 'content-attribute-a' }]: [#setupAttribute] defines
    accessors under the key ["undefined"]; reading [element.undefined] gives
    the content attribute (or ['']) and writing it sets the content
    attribute. *)
Theorem contentName_only_defines_accessors :
  idlName content_attribute_a = None
  /\ refused content_attribute_a = false
  /\ (exists proto',
        setupAttribute content_attribute_a ∅ = Ok proto'
        /\ proto' !! "undefined" = Some (default_accessor content_attribute_a))
  /\ get (default_accessor content_attribute_a) element_0
     = Ok (VStr "", element_0)
  /\ exists st',
       set (default_accessor content_attribute_a) (VStr "abc") element_0
       = Ok (tt, st')
       /\ attributes element_0 !! "content-attribute-a" = None
       /\ attributes st' !! "content-attribute-a" = Some "abc"
       /\ get (default_accessor content_attribute_a) st' = Ok (VStr "abc", st').
Proof.
  split; [reflexivity|]. split; [reflexivity|]. split.
  - exists (<[key_of content_attribute_a := accessor_of content_attribute_a]> ∅).
    split; [reflexivity|apply lookup_insert_eq].
  - split; [reflexivity|]. eexists. split; [reflexivity|].
    split; [apply lookup_empty|]. split; vm_compute; reflexivity.
Qed.

(** *** observedAttributes *)

(** C8: [observedAttributes] is the list of the contentName values of the
    descriptors that have contentName set, in the order of the descriptors;
    a descriptor without contentName contributes nothing. *)
Theorem observedAttributes_declared attributes :
  observedAttributes attributes = map Some (declared_contentNames attributes).
Proof.
  unfold observedAttributes.
  induction attributes as [|d rest IH]; [reflexivity|].
  cbn [List.filter declared_contentNames].
  unfold truthy at 1, of_name, ToBoolean.
  destruct (contentName d) as [name|] eqn:Hd.
  - destruct (String.eqb name ""); cbn [negb map];
      [|rewrite Hd]; rewrite IH; reflexivity.
  - exact IH.
Qed.

Example observedAttributes_WebComponent :
  observedAttributes WebComponent_attributes
  = [ Some "content-attribute-a"; Some "content-attribute-b";
      Some "boolean-that-reflects"; Some "number-that-reflects" ].
Proof. reflexivity. Qed.

(** *** Number properties: what the getter can return *)



Lemma get_number config st :
  type config = Some "number" ->
  get (accessor_of config) st
  = get (number_accessor config) st.
Proof.
  intros Ht. unfold accessor_of.
  rewrite bool_decide_eq_false_2 by (rewrite Ht; discriminate).
  rewrite bool_decide_eq_true_2 by assumption. reflexivity.
Qed.

Lemma get_nonreflecting_number config st :
  type config = Some "number" ->
  truthy (proxyTarget config) = false ->
  truthy (contentName config) = false ->
  get (accessor_of config) st
  = Ok ((parseFloat (default VUndefined (idlAttributes st !! idlName config))
         || parseFloat (defaultValue config) || VNull)%js, st).
Proof.
  intros Ht Hp Hc. rewrite get_number by assumption.
  simpl. unfold_M. rewrite Hp, Hc. reflexivity.
Qed.



(** The values of the tests: 0, a string that is no number and [null] are
    read as [null]; ['123.456'] as 123.456. *)
Example number_getter_examples :
  (parseFloat (VNum 0) || parseFloat VUndefined || VNull)%js = VNull
  /\ (parseFloat (VStr "abc") || parseFloat VUndefined || VNull)%js = VNull
  /\ (parseFloat VNull || VNull)%js = VNull
  /\ (parseFloat (VStr "-0") || parseFloat VUndefined || VNull)%js = VNull
  /\ (parseFloat (VStr "123.456") || parseFloat VUndefined || VNull)%js
     = VNum 123.456
  /\ (parseFloat (VNum 123) || parseFloat VUndefined || VNull)%js = VNum 123.
Proof. repeat split; vm_compute; reflexivity. Qed.

(** *** Untyped properties without contentName *)

Lemma get_nonreflecting_untyped config st :
  untyped config ->
  truthy (proxyTarget config) = false ->
  truthy (contentName config) = false ->
  get (accessor_of config) st
  = Ok ((default VUndefined (idlAttributes st !! idlName config)
         || defaultValue config || last_resort config)%js, st).
Proof.
  intros [Hb Hn] Hp Hc. unfold accessor_of.
  rewrite !bool_decide_eq_false_2 by assumption.
  simpl. unfold_M. rewrite Hp, Hc. reflexivity.
Qed.




(** *** Readonly properties *)

(** The setter writes the private store under its own idlName, and only
    when the configuration is not readonly. *)
Lemma set_idlAttributes config v st st' :
  set (accessor_of config) v st = Ok (tt, st') ->
  idlAttributes st' = idlAttributes st
  \/ (readonly config = false
      /\ idlAttributes st' = <[idlName config := v]> (idlAttributes st)).
Proof.
  by_type config; unfold_M;
    destruct (readonly config); simpl;
    destruct (truthy (proxyTarget config));
    try destruct (fields st !! ToPropertyKey (proxyTarget config));
    destruct (truthy (contentName config)); simpl;
    try destruct (ToBoolean v);
    try destruct (valid_attribute_name (ToPropertyKey (contentName config)));
    intros H; try discriminate; injection H as <-; simpl; auto.
Qed.

Section Reachable.

Variable configs : list AttributeConfig.
Variable proto : gmap string accessor.
Hypothesis set_up : setupAttributes configs ∅ = (proto, None).

Lemma perform_written_by ev st st' :
  written_by configs st ->
  perform proto ev st = Ok (tt, st') ->
  written_by configs st'.
Proof.
  intros Hinv. destruct ev as [key|key v|name v|name|name l|l key v]; simpl.
  - destruct (fields st !! key), (proto !! key) as [a|] eqn:Ha;
      try (intros H; injection H as <-; assumption).
    destruct (setupAttributes_origin _ _ _ _ set_up Ha) as (c & _ & _ & ->).
    unfold mbind, M_bind, mret, M_ret.
    destruct (get (accessor_of c) st) as [[r st1]|e] eqn:Hget; [|discriminate].
    apply get_pure in Hget as ->. intros H. injection H as <-. assumption.
  - destruct (fields st !! key), (proto !! key) as [a|] eqn:Ha;
      try (intros H; injection H as <-; assumption).
    destruct (setupAttributes_origin _ _ _ _ set_up Ha) as (c & Hin & _ & ->).
    intros Hset. apply set_idlAttributes in Hset as [Heq|[Hr Heq]];
      intros k Hk; rewrite Heq in Hk; [auto|].
    destruct (decide (idlName c = k)) as [<-|Hne]; [eauto|].
    rewrite lookup_insert_ne in Hk by assumption. auto.
  - unfold setAttribute.
    destruct (valid_attribute_name (ToPropertyKey (Some name)));
      [|discriminate].
    intros H. injection H as <-. exact Hinv.
  - unfold removeAttribute. intros H. injection H as <-. exact Hinv.
  - intros H; injection H as <-; exact Hinv.
  - intros H. injection H as <-. exact Hinv.
Qed.

Lemma run_written_by evs : forall st st',
  written_by configs st ->
  run proto evs st = Ok (tt, st') ->
  written_by configs st'.
Proof.
  induction evs as [|ev rest IH]; simpl; intros st st' Hinv.
  - intros H. injection H as <-. assumption.
  - unfold mbind, M_bind.
    destruct (perform proto ev st) as [[[] st1]|e] eqn:Hev; [|discriminate].
    intros Hrun. eapply IH; [|exact Hrun].
    eapply perform_written_by; eassumption.
Qed.

Lemma reachable_written_by st :
  reachable proto st -> written_by configs st.
Proof.
  intros (element & evs & Hrun).
  eapply run_written_by; [|exact Hrun].
  intros key [v Hv]. simpl in Hv. rewrite lookup_empty in Hv. discriminate.
Qed.

(** Two configurations of a set-up component under one key are the same. *)
Lemma key_of_unique c c' :
  In c configs -> In c' configs -> key_of c = key_of c' -> c = c'.
Proof.
  pose proof (setupAttributes_Ok _ _ _ set_up) as (_ & Hnd & _).
  clear set_up. revert Hnd.
  induction configs as [|d rest IH]; simpl; [tauto|].
  intros Hnd Hc Hc' Hk. apply NoDup_cons in Hnd as [Hd Hnd].
  rewrite list_elem_of_In in Hd.
  destruct Hc as [<-|Hc], Hc' as [<-|Hc']; auto.
  - exfalso. apply Hd. rewrite Hk. apply in_map. assumption.
  - exfalso. apply Hd. rewrite <- Hk. apply in_map. assumption.
Qed.

(** The store never holds a value for a readonly property. *)
Lemma readonly_never_stored config st :
  In config configs ->
  readonly config = true ->
  reachable proto st ->
  idlAttributes st !! idlName config = None.
Proof.
  intros Hin Hr Hst. apply reachable_written_by in Hst.
  destruct (idlAttributes st !! idlName config) as [v|] eqn:Hv; [|reflexivity].
  destruct (Hst (idlName config)) as (c' & Hin' & Hname & Hr'); [eauto|].
  assert (c' = config) as ->.
  { apply key_of_unique; [assumption..|]. unfold key_of. rewrite Hname.
    reflexivity. }
  congruence.
Qed.

End Reachable.

Lemma get_nonreflecting_unset config st :
  truthy (proxyTarget config) = false ->
  truthy (contentName config) = false ->
  idlAttributes st !! idlName config = None ->
  get (accessor_of config) st = Ok (coerced_default config, st).
Proof.
  intros Hp Hc Hst. unfold coerced_default.
  case_bool_decide as Hb; [|case_bool_decide as Hn].
  - unfold accessor_of. rewrite bool_decide_eq_true_2 by assumption.
    simpl. unfold_M. rewrite Hp, Hc. simpl. rewrite Hst. reflexivity.
  - rewrite get_nonreflecting_number, Hst by assumption. reflexivity.
  - rewrite get_nonreflecting_untyped, Hst by (try split; assumption).
    reflexivity.
Qed.

(** C7, as stated, fails for a readonly configuration that has a proxy
    target besides its defaultValue: after [proxyTargetB.mabel = 'xyz'] the
    getter returns ['xyz'], not the defaultValue ['abc']. *)
Lemma readonly_proxy_follows_target :
  readonly mabel_default = true
  /\ defaultValue mabel_default = VStr "abc"
  /\ exists proto,
       setupAttributes [mabel_default] ∅ = (proto, None)
       /\ proto !! "mabel" = Some (accessor_of mabel_default)
       /\ exists st,
            run proto [FieldInit "proxyTargetB" 1;
                       ObjectSet 1 "mabel" (VStr "xyz")]
              (with_idlAttributes element_0) = Ok (tt, st)
            /\ get (accessor_of mabel_default) st = Ok (VStr "xyz", st)
            /\ VStr "xyz" <> coerced_default mabel_default.
Proof.
  split; [reflexivity|]. split; [reflexivity|].
  exists (<[key_of mabel_default := accessor_of mabel_default]> ∅).
  split; [reflexivity|]. split; [apply lookup_insert_eq|].
  eexists. split; [vm_compute; reflexivity|].
  split; [vm_compute; reflexivity|].
  vm_compute. discriminate.
Qed.

(** C7, amended: for a readonly configuration of a set-up component, every
    write through the installed setter changes nothing at all (private
    store, content attributes, proxy target, hook calls), and a read leaves
    the instance, its content attributes included, as it was.  When the
    configuration has neither proxyTarget nor contentName it has a
    defaultValue, and in every reachable state the getter returns that
    defaultValue as the type makes it: [Boolean(defaultValue)],
    [parseFloat(defaultValue) || null], or [defaultValue || ''] (type
    'string') and [defaultValue || null] (no type). *)
Theorem readonly_property configs proto config :
  setupAttributes configs ∅ = (proto, None) ->
  In config configs ->
  readonly config = true ->
  exists a,
    proto !! key_of config = Some a
    /\ (forall v st, set a v st = Ok (tt, st))
    /\ (forall st v st', get a st = Ok (v, st') -> st' = st)
    /\ (truthy (proxyTarget config) = false ->
        truthy (contentName config) = false ->
        is_defined (defaultValue config) = true
        /\ forall st, reachable proto st ->
             get a st = Ok (coerced_default config, st)).
Proof.
  intros Hset Hin Hr.
  pose proof (setupAttributes_Ok _ _ _ Hset) as (Hall & _ & _ & Hdef & _).
  exists (accessor_of config). split; [auto|].
  split; [intros v st; apply set_readonly; assumption|].
  split; [intros st v st'; apply get_pure|].
  intros Hp Hc. split.
  - rewrite Forall_forall in Hall.
    specialize (Hall config). rewrite list_elem_of_In in Hall.
    specialize (Hall Hin). unfold refused, readonly_without_source in Hall.
    rewrite Hr, Hp in Hall. simpl in Hall.
    destruct (is_defined (defaultValue config)); [reflexivity|].
    rewrite !orb_true_r in Hall. discriminate.
  - intros st Hst. apply get_nonreflecting_unset; [assumption..|].
    eapply readonly_never_stored; eassumption.
Qed.

Lemma readonly_property_witness :
  exists a,
    fst (setupAttributes WebComponent_attributes ∅) !! key_of readonlyNumber
    = Some a
    /\ (forall v st, set a v st = Ok (tt, st))
    /\ (forall st v st', get a st = Ok (v, st') -> st' = st)
    /\ (truthy (proxyTarget readonlyNumber) = false ->
        truthy (contentName readonlyNumber) = false ->
        is_defined (defaultValue readonlyNumber) = true
        /\ forall st,
             reachable (fst (setupAttributes WebComponent_attributes ∅)) st ->
             get a st = Ok (coerced_default readonlyNumber, st)).
Proof.
  apply (readonly_property WebComponent_attributes
           (fst (setupAttributes WebComponent_attributes ∅)) readonlyNumber).
  - exact WebComponent_set_up.
  - do 8 right. left. reflexivity.
  - reflexivity.
Defined.

(** The readonly properties of the tests read as their defaultValue. *)
Example coerced_default_examples :
  coerced_default readonlyNumber = VNum 123.456
  /\ coerced_default
       (config_of (Some "readonlyString") None None None (VStr "abc") true)
     = VStr "abc"
  /\ coerced_default
       (config_of (Some "readonlyBoolean") None None (Some "boolean")
          (VBool true) true)
     = VBool true.
Proof. repeat split; vm_compute; reflexivity. Qed.


(** ** Further properties *)

(** *** The base check *)

(** [attributesMixin] accepts [Base] exactly when [HTMLElement] is [Base]
    itself or one of the classes it extends, directly or not. *)
Theorem attributesMixin_accepts_descendants Base :
  (exists cls, attributesMixin Base = Ok cls)
  <-> In HTMLElement (Base :: ancestors Base).
Proof.
  assert (Hchain : forall B,
            prototype_instanceof_HTMLElement B = true <-> In HTMLElement (ancestors B)).
  { induction B as [| name | name super IH]; simpl.
    - split; [discriminate|tauto].
    - split; [discriminate|tauto].
    - rewrite orb_true_iff, IH. destruct super; simpl; split; intros [H|H];
        auto; discriminate. }
  split.
  - intros [cls Hcls]. destruct (conforms Base) eqn:Hc.
    + unfold conforms in Hc. apply orb_true_iff in Hc as [Hc|Hc].
      * destruct Base; try discriminate. left. reflexivity.
      * right. apply Hchain. assumption.
    + destruct (attributesMixin_throws Base Hc) as [m Hm]. congruence.
  - intros [H|H].
    + subst Base. eexists. reflexivity.
    + exists new_component. apply attributesMixin_conforms.
      unfold conforms. apply Hchain in H. rewrite H. apply orb_true_r.
Qed.

(** *** Setting up the accessors *)






(** *** The constructor *)



(** What is on the prototype stays there. *)
Lemma setupAttributes_keeps configs : forall proto p e key,
  setupAttributes configs proto = (p, e) ->
  is_Some (proto !! key) -> is_Some (p !! key).
Proof.
  induction configs as [|c rest IH]; simpl; intros proto p e key H Hk.
  - injection H as <- _. assumption.
  - destruct (setupAttribute c proto) as [proto'|e'] eqn:Hc.
    + apply setupAttribute_Ok in Hc as (_ & _ & ->).
      apply (IH _ _ _ _ H). apply lookup_insert_is_Some.
      destruct (decide (key_of c = key)); auto.
    + injection H as <- _. assumption.
Qed.

(** After a first construction that throws, the class is not ready and
    every later construction throws as well: the same exception when the
    first configuration is a refused one, a TypeError when it is not,
    because its accessors are on the prototype already.  (No configuration
    is under the key [constructor].) *)
Theorem constructor_failure_persists configs element cls e :
  has_key configs "constructor" = false ->
  constructor configs new_component element = (cls, Throw e) ->
  attributesReady cls = false
  /\ exists first rest,
       configs = first :: rest
       /\ forall element',
            exists e',
              constructor configs cls element' = (cls, Throw e')
              /\ (refused first = true -> e' = e)
              /\ (refused first = false -> exists message, e' = TypeError message).
Proof.
  intros _. unfold constructor. simpl. rewrite lookup_empty.
  destruct (setupAttributes configs ∅) as [p [e0|]] eqn:Hs; [|discriminate].
  intros H. injection H as <- <-. simpl. split; [reflexivity|].
  destruct configs as [|c rest]; [discriminate|].
  exists c, rest. split; [reflexivity|]. intros element'.
  simpl in Hs. simpl. destruct (refused c) eqn:Hr.
  - destruct (setupAttribute_refused c ∅ Hr) as [m Hm].
    rewrite Hm in Hs. injection Hs as <- <-. rewrite Hm.
    eexists. split; [reflexivity|]. split; [reflexivity|discriminate].
  - rewrite (setupAttribute_accepted _ _ Hr) in Hs by apply lookup_empty.
    unfold defineProperty in Hs.
    rewrite lookup_empty in Hs. fold (key_of c) in Hs.
    assert (Hk : is_Some (p !! key_of c)).
    { apply (setupAttributes_keeps _ _ _ _ _ Hs).
      rewrite lookup_insert_eq. eauto. }
    destruct (p !! "constructor") as [a0|] eqn:Hcon.
    { eexists. split; [reflexivity|]. split; [discriminate|eauto]. }
    rewrite (setupAttribute_accepted _ _ Hr Hcon). unfold defineProperty.
    fold (key_of c). destruct Hk as [a ->].
    eexists. split; [reflexivity|]. split; [discriminate|eauto].
Qed.

Lemma constructor_failure_persists_witness :
  attributesReady
    {| attributesReady := false;
       prototype := fst (setupAttributes attributes_with_error ∅) |} = false
  /\ exists first rest,
       attributes_with_error = first :: rest
       /\ forall element',
            exists e',
              constructor attributes_with_error
                {| attributesReady := false;
                   prototype := fst (setupAttributes attributes_with_error ∅) |}
                element'
              = ({| attributesReady := false;
                    prototype := fst (setupAttributes attributes_with_error ∅) |},
                 Throw e')
              /\ (refused first = true ->
                  e' = Error "You must provide a proxyTarget or defaultValue for readonly attributes.")
              /\ (refused first = false ->
                  exists message, e' = TypeError message).
Proof.
  apply (constructor_failure_persists attributes_with_error element_0).
  - reflexivity.
  - reflexivity.
Defined.

(** *** Writing, then reading *)

Lemma object_at_insert h l o : object_at (<[l := o]> h) l = o.
Proof. unfold object_at. rewrite lookup_insert_eq. reflexivity. Qed.


Lemma get_proxy config st l :
  truthy (proxyTarget config) = true ->
  fields st !! ToPropertyKey (proxyTarget config) = Some l ->
  get (accessor_of config) st
  = Ok (read_proxied config
          (default VUndefined (object_at (heap st) l !! key_of config)), st).
Proof.
  intros Hp Hl. unfold read_proxied.
  case_bool_decide as Hb; [|case_bool_decide as Hn].
  - unfold accessor_of. rewrite bool_decide_eq_true_2 by assumption.
    simpl. unfold_M. rewrite Hp, Hl. reflexivity.
  - apply proxy_get_number; assumption.
  - apply proxy_get_untyped; [split|..]; assumption.
Qed.



(** For a property with a proxy target, on an instance that has a plain
    object in a field of that name (idlName other than [__proto__]),
    [get()] reads that object: after [set(v)] (readonly not true,
    [attributeChangedCallback] not shadowed) and after a direct assignment
    [target[idlName] = v] alike it returns [v] as the type reads it ([v]
    itself, falsy or not, for an untyped property). *)
Theorem proxy_round_trip configs proto config v st l :
  setupAttributes configs ∅ = (proto, None) ->
  In config configs ->
  truthy (proxyTarget config) = true ->
  fields st !! ToPropertyKey (proxyTarget config) = Some l ->
  data_key (key_of config) = true ->
  (readonly config = false ->
   shadowed configs st "attributeChangedCallback" = false ->
   exists st1, set (installed configs config) v st = Ok (tt, st1)
               /\ get (installed configs config) st1
                  = Ok (read_proxied config v, st1))
  /\ (exists st2, perform proto (ObjectSet l (key_of config) v) st = Ok (tt, st2)
                  /\ get (installed configs config) st2
                     = Ok (read_proxied config v, st2))
  /\ (untyped config -> read_proxied config v = v).
Proof.
  intros H Hin Hp Hl _.
  pose proof (set_up_accepted _ _ _ H Hin) as Hacc.
  pose proof (accepted_proxy_no_contentName _ Hacc Hp) as Hc.
  assert (Hread : forall st0,
            get (installed configs config) st0 = get (accessor_of config) st0).
  { intros st0. apply installed_get.
    rewrite called_by_get_no_contentName by assumption. constructor. }
  split; [|split].
  - intros Hr Hhook.
    rewrite installed_set
      by (rewrite called_by_set_nonreflecting by assumption; auto).
    eexists. split.
    + apply set_proxy; eauto.
    + rewrite Hread, (get_proxy _ _ l) by assumption. simpl.
      rewrite object_at_insert, lookup_insert_eq. reflexivity.
  - eexists. split; [reflexivity|].
    rewrite Hread, (get_proxy _ _ l) by assumption. simpl.
    rewrite object_at_insert, lookup_insert_eq. reflexivity.
  - intros [Hb Hn]. unfold read_proxied.
    rewrite !bool_decide_eq_false_2 by assumption. reflexivity.
Qed.

Lemma proxy_round_trip_witness :
  (readonly label = false ->
   shadowed WebComponent_attributes element_B "attributeChangedCallback" = false ->
   exists st1,
     set (installed WebComponent_attributes label) (VStr "") element_B
     = Ok (tt, st1)
     /\ get (installed WebComponent_attributes label) st1
        = Ok (read_proxied label (VStr ""), st1))
  /\ (exists st2,
        perform (fst (setupAttributes WebComponent_attributes ∅))
          (ObjectSet 1 (key_of label) (VStr "")) element_B = Ok (tt, st2)
        /\ get (installed WebComponent_attributes label) st2
           = Ok (read_proxied label (VStr ""), st2))
  /\ (untyped label -> read_proxied label (VStr "") = VStr "").
Proof.
  apply (proxy_round_trip WebComponent_attributes
           (fst (setupAttributes WebComponent_attributes ∅))
           label (VStr "") element_B 1%positive).
  - exact WebComponent_set_up.
  - do 10 right. left. reflexivity.
  - reflexivity.
  - reflexivity.
  - reflexivity.
Defined.

(** For a boolean property with contentName, on an element on which
    [hasAttribute], [setAttribute] and [removeAttribute] are the host's,
    [get()] tells whether the content attribute of that name, in lower
    case, is present, whatever its value; [set(v)] (readonly not true) sets
    the attribute to [''] for a truthy [v], when the contentName is an
    attribute name, and removes it for a falsy one; it leaves the private
    store as it is, and [get()] after it is [Boolean(v)]. *)
Theorem boolean_reflecting configs proto config st :
  setupAttributes configs ∅ = (proto, None) ->
  In config configs ->
  type config = Some "boolean" ->
  truthy (contentName config) = true ->
  shadowed configs st "hasAttribute" = false ->
  get (installed configs config) st
  = Ok (VBool (bool_decide
                 (is_Some (attributes st
                           !! lower (ToPropertyKey (contentName config))))),
        st)
  /\ (readonly config = false ->
      shadowed configs st "setAttribute" = false ->
      shadowed configs st "removeAttribute" = false ->
      forall v,
        ToBoolean v = false
        \/ valid_attribute_name (ToPropertyKey (contentName config)) = true ->
        exists st1,
          set (installed configs config) v st = Ok (tt, st1)
          /\ attributes st1
             = (if ToBoolean v
                then <[lower (ToPropertyKey (contentName config)) := ""]>
                       (attributes st)
                else delete (lower (ToPropertyKey (contentName config)))
                       (attributes st))
          /\ idlAttributes st1 = idlAttributes st
          /\ get (installed configs config) st1 = Ok (Boolean v, st1)).
Proof.
  intros H Hin Ht Hc Hhas.
  pose proof (set_up_accepted _ _ _ H Hin) as Hacc.
  pose proof (accepted_contentName_no_proxy _ Hacc Hc) as Hp.
  assert (Hget : forall attributes',
     get (installed configs config)
       {| idlAttributes := idlAttributes st;
          attributes := attributes';
          fields := fields st;
          heap := heap st;
          calls := calls st |}
     = Ok (VBool (bool_decide
                    (is_Some (attributes'
                              !! lower (ToPropertyKey (contentName config))))),
           {| idlAttributes := idlAttributes st;
              attributes := attributes';
              fields := fields st;
              heap := heap st;
              calls := calls st |})).
  { intros attributes'. rewrite installed_get.
    - unfold accessor_of. rewrite bool_decide_eq_true_2 by assumption.
      simpl. unfold_M. rewrite Hp, Hc. reflexivity.
    - unfold called_by_get. rewrite Hp, Hc. simpl.
      rewrite bool_decide_eq_true_2 by assumption.
      constructor; [exact Hhas|constructor]. }
  split.
  { destruct st. apply Hget. }
  intros Hr Hset Hremove v Hname.
  assert (Hcalled : Forall (fun member => shadowed configs st member = false)
                      (called_by_set config v)).
  { unfold called_by_set. rewrite Hr, Hc. simpl.
    rewrite bool_decide_eq_true_2 by assumption. simpl.
    destruct (ToBoolean v); simpl; auto. }
  rewrite installed_set by assumption.
  assert (Hwrite :
     set (accessor_of config) v st
     = Ok (tt, {| idlAttributes := idlAttributes st;
                  attributes :=
                    if ToBoolean v
                    then <[lower (ToPropertyKey (contentName config)) := ""]>
                           (attributes st)
                    else delete (lower (ToPropertyKey (contentName config)))
                           (attributes st);
                  fields := fields st;
                  heap := heap st;
                  calls := calls st |})).
  { unfold accessor_of. rewrite bool_decide_eq_true_2 by assumption.
    simpl. unfold_M. rewrite Hr, Hp, Hc. simpl.
    destruct (ToBoolean v); [|reflexivity].
    destruct Hname as [Hname|Hname]; [discriminate|].
    rewrite Hname. reflexivity. }
  eexists. split; [exact Hwrite|]. simpl. repeat split.
  rewrite Hget. unfold Boolean.
  destruct (ToBoolean v).
  - rewrite lookup_insert_eq. reflexivity.
  - rewrite lookup_delete_eq. reflexivity.
Qed.

Lemma boolean_reflecting_witness :
  get (installed WebComponent_attributes booleanThatReflects) element_0
  = Ok (VBool (bool_decide
                 (is_Some (attributes element_0
                           !! lower (ToPropertyKey
                                       (contentName booleanThatReflects))))),
        element_0)
  /\ (readonly booleanThatReflects = false ->
      shadowed WebComponent_attributes element_0 "setAttribute" = false ->
      shadowed WebComponent_attributes element_0 "removeAttribute" = false ->
      forall v,
        ToBoolean v = false
        \/ valid_attribute_name (ToPropertyKey (contentName booleanThatReflects))
           = true ->
        exists st1,
          set (installed WebComponent_attributes booleanThatReflects) v element_0
          = Ok (tt, st1)
          /\ attributes st1
             = (if ToBoolean v
                then <[lower (ToPropertyKey (contentName booleanThatReflects))
                       := ""]> (attributes element_0)
                else delete (lower (ToPropertyKey
                                      (contentName booleanThatReflects)))
                       (attributes element_0))
          /\ idlAttributes st1 = idlAttributes element_0
          /\ get (installed WebComponent_attributes booleanThatReflects) st1
             = Ok (Boolean v, st1)).
Proof.
  apply (boolean_reflecting WebComponent_attributes
           (fst (setupAttributes WebComponent_attributes ∅))
           booleanThatReflects element_0).
  - exact WebComponent_set_up.
  - do 14 right. left. reflexivity.
  - reflexivity.
  - reflexivity.
  - reflexivity.
Defined.

Lemma get_reflecting_untyped config st :
  untyped config ->
  truthy (proxyTarget config) = false ->
  truthy (contentName config) = true ->
  get (accessor_of config) st
  = Ok ((from_option VStr VNull
           (attributes st !! lower (ToPropertyKey (contentName config)))
         || defaultValue config || VStr "")%js, st).
Proof.
  intros [Hb Hn] Hp Hc. unfold accessor_of.
  rewrite !bool_decide_eq_false_2 by assumption.
  simpl. unfold_M. rewrite Hp, Hc. reflexivity.
Qed.

(** For an untyped property with a contentName that is an attribute name,
    on an element on which [setAttribute] and [getAttribute] are the
    host's, [set(v)] (readonly not true) sets the content attribute of that
    name, in lower case, to the string of [v] and leaves the private store
    as it is; [get()] after it is that string, not [v], unless the string
    is empty: then, and after the attribute is removed, [get()] is
    defaultValue when that is truthy and [''] otherwise. *)
Theorem untyped_reflecting configs proto config st :
  setupAttributes configs ∅ = (proto, None) ->
  In config configs ->
  untyped config ->
  truthy (contentName config) = true ->
  valid_attribute_name (ToPropertyKey (contentName config)) = true ->
  shadowed configs st "setAttribute" = false ->
  shadowed configs st "getAttribute" = false ->
  (readonly config = false ->
   forall v, exists st1,
     set (installed configs config) v st = Ok (tt, st1)
     /\ attributes st1
        = <[lower (ToPropertyKey (contentName config)) := ToString v]>
            (attributes st)
     /\ idlAttributes st1 = idlAttributes st
     /\ (ToString v <> "" ->
         get (installed configs config) st1 = Ok (VStr (ToString v), st1))
     /\ (ToString v = "" ->
         get (installed configs config) st1
         = Ok ((defaultValue config || VStr "")%js, st1)))
  /\ (exists st1,
        removeAttribute (contentName config) st = Ok (tt, st1)
        /\ get (installed configs config) st1
           = Ok ((defaultValue config || VStr "")%js, st1)).
Proof.
  intros H Hin Hu Hc Hv Hset Hget.
  pose proof (set_up_accepted _ _ _ H Hin) as Hacc.
  pose proof (accepted_contentName_no_proxy _ Hacc Hc) as Hp.
  assert (Hread : forall attributes',
            get (installed configs config)
              {| idlAttributes := idlAttributes st;
                 attributes := attributes';
                 fields := fields st;
                 heap := heap st;
                 calls := calls st |}
            = get (accessor_of config)
                {| idlAttributes := idlAttributes st;
                   attributes := attributes';
                   fields := fields st;
                   heap := heap st;
                   calls := calls st |}).
  { intros attributes'. apply installed_get.
    rewrite called_by_get_reflecting by (try apply Hu; assumption).
    constructor; [exact Hget|constructor]. }
  split.
  - intros Hr v.
    rewrite installed_set
      by (rewrite called_by_set_reflecting by (try left; try apply Hu; auto);
          auto).
    destruct (set_reflecting config v st Hr Hp Hc Hv) as (attrs & Hwrite & Hattrs).
    rewrite Hattrs in Hwrite by (apply Hu).
    eexists. split; [exact Hwrite|]. simpl. repeat split.
    + intros Hs. rewrite Hread, get_reflecting_untyped by assumption. simpl.
      rewrite lookup_insert_eq. simpl.
      assert (Ht : ToBoolean (VStr (ToString v)) = true).
      { unfold ToBoolean. apply negb_true_iff, String.eqb_neq. assumption. }
      rewrite (or_truthy _ _ Ht), (or_truthy _ _ Ht). reflexivity.
    + intros Hs. rewrite Hread, get_reflecting_untyped by assumption. simpl.
      rewrite lookup_insert_eq. simpl. rewrite Hs. reflexivity.
  - eexists. split; [reflexivity|].
    rewrite Hread, get_reflecting_untyped by assumption. simpl.
    rewrite lookup_delete_eq. reflexivity.
Qed.

Lemma untyped_reflecting_witness :
  (readonly attributeB = false ->
   forall v, exists st1,
     set (installed WebComponent_attributes attributeB) v element_0 = Ok (tt, st1)
     /\ attributes st1
        = <[lower (ToPropertyKey (contentName attributeB)) := ToString v]>
            (attributes element_0)
     /\ idlAttributes st1 = idlAttributes element_0
     /\ (ToString v <> "" ->
         get (installed WebComponent_attributes attributeB) st1
         = Ok (VStr (ToString v), st1))
     /\ (ToString v = "" ->
         get (installed WebComponent_attributes attributeB) st1
         = Ok ((defaultValue attributeB || VStr "")%js, st1)))
  /\ (exists st1,
        removeAttribute (contentName attributeB) element_0 = Ok (tt, st1)
        /\ get (installed WebComponent_attributes attributeB) st1
           = Ok ((defaultValue attributeB || VStr "")%js, st1)).
Proof.
  apply (untyped_reflecting WebComponent_attributes
           (fst (setupAttributes WebComponent_attributes ∅))
           attributeB element_0).
  - exact WebComponent_set_up.
  - do 2 right. left. reflexivity.
  - split; discriminate.
  - reflexivity.
  - reflexivity.
  - reflexivity.
  - reflexivity.
Defined.

(** *** What a write leaves alone *)

(** The parts of the instance a setter can change: the private store under
    its idlName, the content attribute of its contentName, the property of
    its key on objects. *)
Lemma set_frame config v st st' :
  set (accessor_of config) v st = Ok (tt, st') ->
  fields st' = fields st
  /\ (forall k, k <> idlName config ->
        idlAttributes st' !! k = idlAttributes st !! k)
  /\ (reflectToContentAttribute config = true ->
        idlAttributes st' = idlAttributes st /\ calls st' = calls st)
  /\ (forall n, n <> lower (ToPropertyKey (contentName config)) ->
        attributes st' !! n = attributes st !! n)
  /\ (reflectToContentAttribute config = false -> attributes st' = attributes st)
  /\ (forall l k, k <> key_of config ->
        object_at (heap st') l !! k = object_at (heap st) l !! k).
Proof.
  assert (Hheap : forall h l0 (o : gmap string value) l k,
            k <> key_of config ->
            object_at (<[l0 := <[key_of config := v]> (object_at h l0)]> h) l !! k
            = object_at h l !! k).
  { intros h l0 o l k Hk. unfold object_at at 1.
    destruct (decide (l0 = l)) as [->|Hl].
    - rewrite lookup_insert_eq. simpl. apply lookup_insert_ne. congruence.
    - rewrite lookup_insert_ne by assumption. reflexivity. }
  unfold reflectToContentAttribute.
  by_type config; unfold_M;
    destruct (readonly config); simpl;
    destruct (truthy (proxyTarget config));
    try destruct (fields st !! ToPropertyKey (proxyTarget config));
    destruct (truthy (contentName config)); simpl;
    try destruct (ToBoolean v);
    try destruct (valid_attribute_name (ToPropertyKey (contentName config)));
    intros H; try discriminate; injection H as <-; simpl;
    (split; [reflexivity|]);
    (split; [intros k Hk; try (rewrite lookup_insert_ne by congruence); reflexivity|]);
    (split; [intros Hc; try discriminate; split; reflexivity|]);
    (split; [intros n Hn;
             try (rewrite lookup_insert_ne by congruence);
             try (rewrite lookup_delete_ne by congruence); reflexivity|]);
    (split; [intros Hc; try discriminate; reflexivity|]);
    intros l k Hk; try reflexivity; apply (Hheap _ _ ∅); assumption.
Qed.

(** What a getter returns depends on the field of its proxy target, on the
    store under its idlName, on the content attribute of its contentName
    and on the property of its key on objects. *)
Lemma get_depends config st st' :
  fields st' = fields st ->
  (reflectToContentAttribute config = false ->
   idlAttributes st' !! idlName config = idlAttributes st !! idlName config) ->
  (reflectToContentAttribute config = true ->
   attributes st' !! lower (ToPropertyKey (contentName config))
   = attributes st !! lower (ToPropertyKey (contentName config))) ->
  (forall l, object_at (heap st') l !! key_of config
             = object_at (heap st) l !! key_of config) ->
  returned (get (accessor_of config) st') = returned (get (accessor_of config) st).
Proof.
  unfold reflectToContentAttribute, key_of. intros Hf Hs Ha Hh.
  by_type config; unfold_M;
    destruct (truthy (proxyTarget config));
    try (rewrite Hf;
         destruct (fields st !! ToPropertyKey (proxyTarget config));
         [rewrite Hh|]; reflexivity);
    destruct (truthy (contentName config)); simpl;
    try rewrite Ha by reflexivity; try rewrite Hs by reflexivity; reflexivity.
Qed.

(** A write that returns has found the member it calls not shadowed. *)
Lemma installed_set_Ok configs config v st st' :
  set (installed configs config) v st = Ok (tt, st') ->
  set (accessor_of config) v st = Ok (tt, st').
Proof.
  unfold_accessors.
  destruct (bool_decide (type config = Some "boolean"));
    [|destruct (bool_decide (type config = Some "number"))];
    simpl; unfold_M;
    destruct (readonly config); simpl; try (intros H; exact H);
    destruct (truthy (proxyTarget config)); simpl;
    try destruct (fields st !! ToPropertyKey (proxyTarget config)); simpl;
    try (intros H; exact H);
    destruct (truthy (contentName config)); simpl;
    try destruct (ToBoolean v); simpl;
    match goal with
    | |- method ?c ?g ?m ?op ?s = _ -> _ =>
        destruct (shadowed c st m) eqn:Hs;
        [destruct (method_shadowed c g m op s Hs) as [e ->]; discriminate
        |rewrite (method_inherited c g m op s Hs); intros H; exact H]
    end.
Qed.

(** Two configurations of a set-up component under one key are the same. *)
Lemma set_up_key_of_unique configs proto c c' :
  setupAttributes configs ∅ = (proto, None) ->
  In c configs -> In c' configs -> key_of c = key_of c' -> c = c'.
Proof. intros H. apply (key_of_unique configs proto H). Qed.

(** Two contentNames that differ in the case of their letters name one
    content attribute: a write through one property is read through the
    other. *)
Example one_attribute_for_two_names :
  let upper := config_of (Some "upper") (Some "Data-X") None None VUndefined false in
  let plain := config_of (Some "plain") (Some "data-x") None None VUndefined false in
  lower "Data-X" = "data-x"
  /\ snd (setupAttributes [upper; plain] ∅) = None
  /\ get (installed [upper; plain] plain) element_0 = Ok (VStr "", element_0)
  /\ exists st,
       set (installed [upper; plain] upper) (VStr "abc") element_0 = Ok (tt, st)
       /\ attributes st !! "data-x" = Some "abc"
       /\ attributes st !! "Data-X" = None
       /\ get (installed [upper; plain] plain) st = Ok (VStr "abc", st).
Proof.
  split; [reflexivity|]. split; [reflexivity|]. split; [reflexivity|].
  eexists. split; [reflexivity|]. repeat split.
Qed.

(** In a set-up component, a write through the setter of one configuration
    does not change what the getter of another configuration returns,
    unless both reflect to content attributes whose names are the same in
    lower case.  The proxy targets are plain objects in fields of the
    instance, the idlName of a written one is not [__proto__], and the
    member the getter calls is not shadowed. *)
Theorem write_leaves_other_properties configs proto c1 c2 v st st' :
  setupAttributes configs ∅ = (proto, None) ->
  In c1 configs ->
  In c2 configs ->
  c1 <> c2 ->
  (reflectToContentAttribute c1 = true -> reflectToContentAttribute c2 = true ->
   lower (ToPropertyKey (contentName c1)) <> lower (ToPropertyKey (contentName c2))) ->
  (truthy (proxyTarget c1) = true -> data_key (key_of c1) = true) ->
  (truthy (proxyTarget c2) = true ->
   is_Some (fields st !! ToPropertyKey (proxyTarget c2))) ->
  Forall (fun member => shadowed configs st member = false) (called_by_get c2) ->
  set (installed configs c1) v st = Ok (tt, st') ->
  returned (get (installed configs c2) st')
  = returned (get (installed configs c2) st).
Proof.
  intros Hs Hin1 Hin2 Hne Hcn _ _ Hm Hset.
  apply installed_set_Ok in Hset.
  assert (Hkey : key_of c2 <> key_of c1).
  { intros Hk. apply Hne. symmetry.
    apply (set_up_key_of_unique configs proto); assumption. }
  apply set_frame in Hset as (Hf & Hstore & _ & Hattr & Hsame & Hheap).
  rewrite !installed_get.
  - apply get_depends.
    + assumption.
    + intros _. apply Hstore. intros Heq. apply Hkey. unfold key_of.
      rewrite Heq. reflexivity.
    + intros Hr2. destruct (reflectToContentAttribute c1) eqn:Hr1.
      * apply Hattr. intros Heq. apply (Hcn eq_refl Hr2). congruence.
      * rewrite Hsame by reflexivity. reflexivity.
    + intros l. apply Hheap. assumption.
  - assumption.
  - unfold shadowed in *. rewrite Hf. assumption.
Qed.

Lemma write_leaves_other_properties_witness :
  returned (get (installed WebComponent_attributes numberThatReflects)
              {| idlAttributes := idlAttributes element_abc;
                 attributes := <["content-attribute-b" := "abc"]>
                                 (attributes element_abc);
                 fields := fields element_abc;
                 heap := heap element_abc;
                 calls := calls element_abc |})
  = returned (get (installed WebComponent_attributes numberThatReflects)
                element_abc).
Proof.
  apply (write_leaves_other_properties WebComponent_attributes
           (fst (setupAttributes WebComponent_attributes ∅))
           attributeB numberThatReflects (VStr "abc") element_abc).
  - exact WebComponent_set_up.
  - do 2 right. left. reflexivity.
  - do 15 right. left. reflexivity.
  - discriminate.
  - intros _ _. discriminate.
  - discriminate.
  - discriminate.
  - repeat constructor.
  - reflexivity.
Defined.

Lemma observedAttributes_In configs config :
  In config configs ->
  reflectToContentAttribute config = true ->
  In (contentName config) (observedAttributes configs).
Proof.
  intros Hin Hr. unfold observedAttributes. apply in_map.
  apply filter_In. auto.
Qed.

(** The setters of a set-up component change no content attribute but
    those that [observedAttributes] names, in lower case: an attribute
    whose name is not the lower-case form of an entry of
    [observedAttributes] is the same after any write through any accessor
    of the component that returns.  The proxy targets are plain objects in
    fields of the instance. *)
Theorem setters_write_observed_attributes configs proto config v st st' name :
  setupAttributes configs ∅ = (proto, None) ->
  In config configs ->
  set (installed configs config) v st = Ok (tt, st') ->
  ~ In name (map (fun entry => lower (ToPropertyKey entry))
               (observedAttributes configs)) ->
  attributes st' !! name = attributes st !! name.
Proof.
  intros Hs Hin Hset Hobs.
  apply installed_set_Ok in Hset.
  apply set_frame in Hset as (_ & _ & _ & Hattr & Hsame & _).
  destruct (reflectToContentAttribute config) eqn:Hr.
  - apply Hattr. intros ->. apply Hobs.
    apply (in_map (fun entry => lower (ToPropertyKey entry))).
    apply observedAttributes_In; assumption.
  - rewrite Hsame by reflexivity. reflexivity.
Qed.

Lemma setters_write_observed_attributes_witness :
  attributes
    {| idlAttributes := <[Some "attributeX" := VNum 2]> (idlAttributes element_abc);
       attributes := attributes element_abc;
       fields := fields element_abc;
       heap := heap element_abc;
       calls := (calls element_abc
                 ++ [(VStr "attributeX", VStr "abc", VNum 2)])%list |}
    !! "attributeX"
  = attributes element_abc !! "attributeX".
Proof.
  apply (setters_write_observed_attributes WebComponent_attributes
           (fst (setupAttributes WebComponent_attributes ∅))
           attributeX (VNum 2) element_abc).
  - exact WebComponent_set_up.
  - left. reflexivity.
  - reflexivity.
  - simpl. intuition discriminate.
Defined.

(** *** Along a run *)

(** A setter writes the private store and calls the hook together, exactly
    when its configuration is not readonly and has no contentName. *)
Lemma set_notifies config v st st' :
  set (accessor_of config) v st = Ok (tt, st') ->
  if notifies config then
    idlAttributes st' = <[idlName config := v]> (idlAttributes st)
    /\ calls st'
       = (calls st
          ++ [(of_name (idlName config),
               default VUndefined (idlAttributes st !! idlName config), v)])%list
  else idlAttributes st' = idlAttributes st /\ calls st' = calls st.
Proof.
  unfold notifies, reflectToContentAttribute.
  by_type config; unfold_M;
    destruct (readonly config); simpl;
    destruct (truthy (proxyTarget config));
    try destruct (fields st !! ToPropertyKey (proxyTarget config));
    destruct (truthy (contentName config)); simpl;
    try destruct (ToBoolean v);
    try destruct (valid_attribute_name (ToPropertyKey (contentName config)));
    intros H; try discriminate; injection H as <-; simpl; auto.
Qed.

Section Runs.

Variable configs : list AttributeConfig.
Variable proto : gmap string accessor.
Hypothesis set_up : setupAttributes configs ∅ = (proto, None).

Lemma perform_stored_by ev st st' :
  stored_by configs st ->
  perform proto ev st = Ok (tt, st') ->
  stored_by configs st'.
Proof.
  intros Hinv. destruct ev as [key|key v|name v|name|name l|l key v]; simpl.
  - destruct (fields st !! key), (proto !! key) as [a|] eqn:Ha;
      try (intros H; injection H as <-; assumption).
    destruct (setupAttributes_origin _ _ _ _ set_up Ha) as (c & _ & _ & ->).
    unfold mbind, M_bind, mret, M_ret.
    destruct (get (accessor_of c) st) as [[r st1]|e] eqn:Hget; [|discriminate].
    apply get_pure in Hget as ->. intros H. injection H as <-. assumption.
  - destruct (fields st !! key), (proto !! key) as [a|] eqn:Ha;
      try (intros H; injection H as <-; assumption).
    destruct (setupAttributes_origin _ _ _ _ set_up Ha) as (c & Hin & _ & ->).
    intros Hset. apply set_notifies in Hset.
    destruct (notifies c) eqn:Hn; destruct Hset as [Heq _];
      intros k Hk; rewrite Heq in Hk; [|auto].
    destruct (decide (idlName c = k)) as [<-|Hne]; [eauto|].
    rewrite lookup_insert_ne in Hk by assumption. auto.
  - unfold setAttribute.
    destruct (valid_attribute_name (ToPropertyKey (Some name)));
      [|discriminate].
    intros H. injection H as <-. exact Hinv.
  - unfold removeAttribute. intros H. injection H as <-. exact Hinv.
  - intros H; injection H as <-; exact Hinv.
  - intros H. injection H as <-. exact Hinv.
Qed.

End Runs.

Lemma WebComponent_accessor config :
  In config WebComponent_attributes ->
  fst (setupAttributes WebComponent_attributes ∅) !! key_of config
  = Some (accessor_of config).
Proof.
  pose proof (setupAttributes_Ok _ _ _ WebComponent_set_up) as (_ & _ & _ & H & _).
  exact (H config).
Qed.

(** In every reachable state of an instance of a set-up component, the
    private store holds values only under the idlName of configurations
    that are not readonly and have no contentName: a property that reflects
    and a readonly property never get an entry. *)
Theorem store_holds_nonreflecting_only configs proto st :
  setupAttributes configs ∅ = (proto, None) ->
  reachable proto st ->
  stored_by configs st.
Proof.
  intros Hs (element & evs & Hrun).
  assert (Hgen : forall evs st0 st1,
            stored_by configs st0 ->
            run proto evs st0 = Ok (tt, st1) ->
            stored_by configs st1).
  { clear Hrun. intros evs0.
    induction evs0 as [|ev rest IH]; simpl; intros st0 st1 Hinv.
    - intros H. injection H as <-. assumption.
    - unfold mbind, M_bind.
      destruct (perform proto ev st0) as [[[] st2]|e] eqn:Hev; [|discriminate].
      intros Hrun. eapply IH; [|exact Hrun].
      eapply perform_stored_by; eassumption. }
  eapply Hgen; [|exact Hrun].
  intros key [v Hv]. simpl in Hv. rewrite lookup_empty in Hv. discriminate.
Qed.

Lemma store_holds_nonreflecting_only_witness :
  stored_by WebComponent_attributes
    {| idlAttributes := <[Some "attributeX" := VStr "abc"]> ∅;
       attributes := ∅; fields := ∅; heap := ∅;
       calls := [(VStr "attributeX", VUndefined, VStr "abc")] |}.
Proof.
  apply (store_holds_nonreflecting_only WebComponent_attributes
           (fst (setupAttributes WebComponent_attributes ∅))).
  - exact WebComponent_set_up.
  - exists element_0, [PropertySet "attributeX" (VStr "abc")].
    assert (HX : fst (setupAttributes WebComponent_attributes ∅) !! "attributeX"
                 = Some (accessor_of attributeX))
      by (apply (WebComponent_accessor attributeX); left; reflexivity).
    cbn [run perform]. unfold mbind, M_bind.
    change (fields (with_idlAttributes element_0) !! "attributeX") with
      (@None positive).
    cbn iota. rewrite HX. reflexivity.
Defined.
